(** * CodeDeployDeployApplication: the deployment orchestration of
    [src/tasks/CodeDeployDeployApplication/TaskOperations.ts]

    A shallow embedding of the class [TaskOperations]: its asynchronous methods
    become computations in a small state-and-exception monad over a world made
    of the local filesystem, the pipeline's output variables and the trace of
    every call that leaves the orchestrator (service requests, filesystem
    operations, console output).  The two SDK clients, the zip library, the
    clock and the temporary directory are the fields of an environment record
    whose answers are arbitrary, so that every theorem holds for every
    behaviour of the services and of the library.

    Three idealisations: a JavaScript string is a sequence of 8-bit
    characters (changes of case act on the ASCII letters), a [number] is an
    exact rational, and [path] is Node's POSIX implementation. *)

From Stdlib Require Import ZArith QArith Qround Lqa String Ascii DecimalString List.
From stdpp Require Import base gmap strings list sorting.
Import ListNotations.

Close Scope Q_scope.
Open Scope string_scope.
Open Scope list_scope.

(** ** JavaScript values used by the task *)

Module JS.

(** A string in a boolean position: [undefined] and [''] are falsy. *)
Definition truthy (s : option string) : bool :=
  match s with
  | Some s => negb (String.eqb s "")
  | None => false
  end.

(** The string an optional property holds once it is known to be truthy. *)
Definition str (s : option string) : string := default "" s.

Definition lowerChar (c : ascii) : ascii :=
  let n := nat_of_ascii c in
  if (65 <=? n)%nat && (n <=? 90)%nat then ascii_of_nat (n + 32) else c.

(** [String.prototype.toLowerCase], on the ASCII letters. *)
Fixpoint toLowerCase (s : string) : string :=
  match s with
  | EmptyString => EmptyString
  | String c r => String (lowerChar c) (toLowerCase r)
  end.

Definition upperChar (c : ascii) : ascii :=
  let n := nat_of_ascii c in
  if (97 <=? n)%nat && (n <=? 122)%nat then ascii_of_nat (n - 32) else c.

(** [String.prototype.toUpperCase], on the ASCII letters. *)
Fixpoint toUpperCase (s : string) : string :=
  match s with
  | EmptyString => EmptyString
  | String c r => String (upperChar c) (toUpperCase r)
  end.

(** [s.replace(/c/g, d)] for one character [c]. *)
Fixpoint replaceChar (c d : ascii) (s : string) : string :=
  match s with
  | EmptyString => EmptyString
  | String x r => String (if Ascii.eqb x c then d else x) (replaceChar c d r)
  end.

(** [s.slice(from, to)] for [0 <= from]. *)
Definition slice (s : string) (from to : Z) : string :=
  substring (Z.to_nat from) (Z.to_nat (to - from)) s.

(** [s.substring(1)]. *)
Definition substring1 (s : string) : string :=
  substring 1 (String.length s - 1) s.

(** A [number] is taken as an exact rational; [Math.round] rounds to the
    nearest integer, a tie going up. *)
Definition Math_round (x : Q) : Z := Qfloor (x + (1 # 2))%Q.

(** The decimal rendering of an integral number in a template string. *)
Definition showZ (z : Z) : string := NilZero.string_of_int (Z.to_int z).

End JS.

(** ** Node's [path] module (POSIX flavour): [basename] and [extname]

    Both scan the path from its last character to its first, as Node does,
    with [-1] for an index not yet seen. *)

Module Path.

Record BaseScan := mkBaseScan {
  b_start : Z;
  b_end : Z;
  b_matchedSlash : bool }.

(** The loop of [basename]; [n] is the number of characters still to visit,
    the current index being [n - 1]. *)
Fixpoint basename_scan (path : string) (n : nat) (s : BaseScan) : BaseScan :=
  match n with
  | O => s
  | S i =>
      match String.get i path with
      | None => s
      | Some code =>
          if Ascii.eqb code "/" then
            if negb (b_matchedSlash s)
            then mkBaseScan (Z.of_nat i + 1) (b_end s) (b_matchedSlash s)
            else basename_scan path i s
          else if (b_end s =? -1)%Z
            then basename_scan path i (mkBaseScan (b_start s) (Z.of_nat i + 1) false)
            else basename_scan path i s
      end
  end.

Definition basename (path : string) : string :=
  let s := basename_scan path (String.length path) (mkBaseScan 0 (-1) true) in
  if (b_end s =? -1)%Z then "" else JS.slice path (b_start s) (b_end s).

Record ExtScan := mkExtScan {
  startDot : Z;
  startPart : Z;
  e_end : Z;
  matchedSlash : bool;
  preDotState : Z }.

(** One character that is not a separator, at index [i]. *)
Definition ext_visit (code : ascii) (i : Z) (s : ExtScan) : ExtScan :=
  let s1 :=
    if (e_end s =? -1)%Z
    then mkExtScan (startDot s) (startPart s) (i + 1) false (preDotState s)
    else s in
  if Ascii.eqb code "." then
    if (startDot s1 =? -1)%Z
    then mkExtScan i (startPart s1) (e_end s1) (matchedSlash s1) (preDotState s1)
    else if negb (preDotState s1 =? 1)%Z
      then mkExtScan (startDot s1) (startPart s1) (e_end s1) (matchedSlash s1) 1
      else s1
  else if negb (startDot s1 =? -1)%Z
    then mkExtScan (startDot s1) (startPart s1) (e_end s1) (matchedSlash s1) (-1)
    else s1.

Fixpoint extname_scan (path : string) (n : nat) (s : ExtScan) : ExtScan :=
  match n with
  | O => s
  | S i =>
      match String.get i path with
      | None => s
      | Some code =>
          if Ascii.eqb code "/" then
            if negb (matchedSlash s)
            then mkExtScan (startDot s) (Z.of_nat i + 1) (e_end s)
                           (matchedSlash s) (preDotState s)
            else extname_scan path i s
          else extname_scan path i (ext_visit code (Z.of_nat i) s)
      end
  end.

Definition extname (path : string) : string :=
  let s := extname_scan path (String.length path) (mkExtScan (-1) 0 (-1) true 0) in
  if (startDot s =? -1)%Z || (e_end s =? -1)%Z || (preDotState s =? 0)%Z
     || ((preDotState s =? 1)%Z && (startDot s =? e_end s - 1)%Z
         && (startDot s =? startPart s + 1)%Z)
  then ""
  else JS.slice path (startDot s) (e_end s).

End Path.

(** ** Messages, errors and requests *)

(** What is handed to the console and to [tl.loc]: the localised message of
    the task library is kept as its resource key and arguments. *)
#[warnings="-register-all"]
Inductive Text :=
| Str (s : string)
| Num (n : Q)
| Undefined
| Loc (key : string) (args : list Text)
| ErrorObject (message : Text).

(** A JavaScript [Error]: the ones the task raises carry a localised
    message, the ones of the SDK, of [fs] and of AdmZip a plain one. *)
Record Error := mkError { message : Text }.

Definition optText (s : option string) : Text :=
  match s with
  | Some s => Str s
  | None => Undefined
  end.

(** A settled promise, or a call that returned or threw. *)
Inductive Outcome (A : Type) :=
| Returned (a : A)
| Thrown (e : Error).
Arguments Returned {A} a.
Arguments Thrown {A} e.

Module S3.
Record PutObjectRequest := mkPutObjectRequest {
  Bucket : string;
  Key : string;
  Body : string;
  ACL : option string }.
End S3.

Module CodeDeploy.
Record S3Location := mkS3Location {
  bucket : string;
  key : string;
  bundleType : string }.

Record RevisionLocation := mkRevisionLocation {
  revisionType : string;
  s3Location : S3Location }.

Record CreateDeploymentInput := mkCreateDeploymentInput {
  applicationName : string;
  deploymentGroupName : string;
  fileExistsBehavior : string;
  ignoreApplicationStopFailures : bool;
  updateOutdatedInstancesOnly : bool;
  revision : RevisionLocation;
  description : option string }.

Record CreateDeploymentOutput := mkCreateDeploymentOutput {
  deploymentId : option string }.

(** The parameters of [waitFor]: [{ deploymentId, $waiter: { maxAttempts } }]. *)
Record WaiterParams := mkWaiterParams {
  w_deploymentId : string;
  maxAttempts : Z }.
End CodeDeploy.

(** Modelled from the spec: the interface [TaskParameters] of
    [./TaskParameters], which is not among the sources; its fields are the
    configuration surface of the spec (section 6) under the names the task
    reads them by.  The optional inputs may be [undefined]. *)
Record TaskParameters := mkTaskParameters {
  applicationName : string;
  deploymentGroupName : string;
  deploymentRevisionSource : string;
  revisionBundle : string;
  bucketName : string;
  bundlePrefix : option string;
  bundleKey : string;
  filesAcl : option string;
  description : option string;
  fileExistsBehavior : string;
  updateOutdatedInstancesOnly : bool;
  ignoreApplicationStopFailures : bool;
  outputVariable : option string;
  timeoutInMins : Q }.

(** Everything that leaves the orchestrator, in the order it happens. *)
Inductive Event :=
| GetApplication (applicationName : string)
| GetDeploymentGroup (applicationName deploymentGroupName : string)
| HeadObject (bucket key : string)
| Stats (path : string)
| WriteZip (folder archive : string)
| CreateReadStream (path : string)
| Upload (request : S3.PutObjectRequest)
| UnlinkSync (path : string)
| CreateDeployment (request : CodeDeploy.CreateDeploymentInput)
| SetVariable (name value : string)
| WaitFor (state : string) (params : CodeDeploy.WaiterParams)
| ConsoleLog (t : Text)
| ConsoleError (t : Text) (err : Error)
| Debug (t : Text).

Inductive FileKind := File | Directory.

Definition isDirectory (k : FileKind) : bool :=
  match k with
  | Directory => true
  | File => false
  end.

(** The collaborators of one invocation: the CodeDeploy and S3 clients,
    AdmZip, the clock, the temporary location of [SdkUtils] and
    [path.join].  Their answers are not constrained.  AdmZip has two: whether
    [addLocalFolder] and [writeZip] throw, and the filesystem a write that did
    not throw leaves behind ([zipWritten folder archive], applied to the
    filesystem it found).  The library decides the latter on its own: it
    creates the directories that are missing on the way to the archive, and
    it may leave the path of the archive as it found it. *)
Record Env := mkEnv {
  cd_getApplication : string -> Outcome unit;
  cd_getDeploymentGroup : string -> string -> Outcome unit;
  s3_headObject : string -> string -> Outcome unit;
  s3_upload : S3.PutObjectRequest -> Outcome unit;
  cd_createDeployment :
    CodeDeploy.CreateDeploymentInput -> Outcome CodeDeploy.CreateDeploymentOutput;
  cd_waitFor : string -> CodeDeploy.WaiterParams -> option Error;
  admZip : string -> string -> Outcome unit;
  zipWritten : string -> string -> gmap string FileKind -> gmap string FileKind;
  dateNow : Z;
  getTempLocation : string;
  path_join : string -> string -> string }.

(** ** The variables of the task library

    [azure-pipelines-task-lib] keeps the value of a variable under a key
    made from its name (its [_getVariableKey]):
    [name.replace(/\./g, '_').replace(/ /g, '_').toUpperCase()].  Names with
    the same key are one variable. *)

Module TaskLib.

Definition getVariableKey (name : string) : string :=
  JS.toUpperCase (JS.replaceChar " " "_" (JS.replaceChar "." "_" name)).

(** The values held, by key. *)
Record Variables := mkVariables {
  byKey : gmap string string }.

(** [tl.setVariable(name, value)], on the store. *)
Definition setVariable (name value : string) (vs : Variables) : Variables :=
  mkVariables (<[getVariableKey name := value]> (byKey vs)).

End TaskLib.

(** No variable is set. *)
#[export] Instance Variables_empty : Empty TaskLib.Variables :=
  TaskLib.mkVariables ∅.

(** [vs !! name] is the value read under a name, as [tl.getVariable(name)]
    reads it: through the key of the name. *)
#[export] Instance Variables_lookup : Lookup string string TaskLib.Variables :=
  fun name vs => TaskLib.byKey vs !! TaskLib.getVariableKey name.

(** ** The world and the monad *)

Record World := mkWorld {
  fs : gmap string FileKind;
  variables : TaskLib.Variables }.

(** One run of a computation: the world it leaves, what it emitted, and how
    it ended. *)
Record Run (A : Type) := mkRun {
  final : World;
  events : list Event;
  outcome : Outcome A }.
Arguments mkRun {A} final events outcome.
Arguments final {A} r.
Arguments events {A} r.
Arguments outcome {A} r.

Definition M (A : Type) : Type := World -> Run A.

#[export] Instance M_ret : MRet M := fun A a w => mkRun w [] (Returned a).

#[export] Instance M_bind : MBind M := fun A B k m w =>
  match m w with
  | mkRun w1 evs1 (Returned a) =>
      match k a w1 with
      | mkRun w2 evs2 o => mkRun w2 (evs1 ++ evs2) o
      end
  | mkRun w1 evs1 (Thrown e) => mkRun w1 evs1 (Thrown e)
  end.

Definition throw {A} (e : Error) : M A := fun w => mkRun w [] (Thrown e).

(** [try { m } catch (err) { h err }]. *)
Definition tryCatch {A} (m : M A) (h : Error -> M A) : M A := fun w =>
  match m w with
  | mkRun w1 evs1 (Returned a) => mkRun w1 evs1 (Returned a)
  | mkRun w1 evs1 (Thrown e) =>
      match h e w1 with
      | mkRun w2 evs2 o => mkRun w2 (evs1 ++ evs2) o
      end
  end.

Definition emit (e : Event) : M unit := fun w => mkRun w [e] (Returned tt).

(** The answer of a collaborator, awaited. *)
Definition await {A} (o : Outcome A) : M A := fun w => mkRun w [] o.

Definition getWorld : M World := fun w => mkRun w [] (Returned w).
Definition putWorld (w' : World) : M unit := fun _ => mkRun w' [] (Returned tt).

(** The requests found in a trace. *)
Definition uploads (evs : list Event) : list S3.PutObjectRequest :=
  omap (fun e => match e with Upload r => Some r | _ => None end) evs.

Definition createDeployments (evs : list Event) : list CodeDeploy.CreateDeploymentInput :=
  omap (fun e => match e with CreateDeployment r => Some r | _ => None end) evs.

Definition waits (evs : list Event) : list CodeDeploy.WaiterParams :=
  omap (fun e => match e with WaitFor _ p => Some p | _ => None end) evs.

Definition published (evs : list Event) : list (string * string) :=
  omap (fun e => match e with SetVariable n v => Some (n, v) | _ => None end) evs.

Definition bundleTypes (evs : list Event) : list string :=
  map (fun r => CodeDeploy.bundleType (CodeDeploy.s3Location (CodeDeploy.revision r)))
      (createDeployments evs).

Definition unlinked (evs : list Event) : list string :=
  omap (fun e => match e with UnlinkSync p => Some p | _ => None end) evs.

(** The events of the package-and-upload path: whatever looks at, writes,
    reads, uploads or removes a local file. *)
Definition isLocal (e : Event) : bool :=
  match e with
  | Stats _ | WriteZip _ _ | CreateReadStream _ | Upload _ | UnlinkSync _ => true
  | _ => false
  end.

(** The stage of [execute] a call belongs to: the existence probes, the
    packaging and upload, the submission, the publication, the wait.  The
    console belongs to none. *)
Definition stage (e : Event) : option nat :=
  match e with
  | GetApplication _ | GetDeploymentGroup _ _ | HeadObject _ _ => Some 1
  | Stats _ | WriteZip _ _ | CreateReadStream _ | Upload _ | UnlinkSync _ => Some 2
  | CreateDeployment _ => Some 3
  | SetVariable _ _ => Some 4
  | WaitFor _ _ => Some 5
  | ConsoleLog _ | ConsoleError _ _ | Debug _ => None
  end.

Definition stages (evs : list Event) : list nat := omap stage evs.

(** The line [TaskCompleted] of the console. *)
Definition isTaskCompleted (e : Event) : bool :=
  match e with
  | ConsoleLog (Loc key _) => String.eqb key "TaskCompleted"
  | _ => false
  end.

(** The calls to [headObject] found in a trace. *)
Definition headObjects (evs : list Event) : list (string * string) :=
  omap (fun e => match e with HeadObject b k => Some (b, k) | _ => None end) evs.

(** The archives written, in a trace. *)
Definition zipped (evs : list Event) : list string :=
  omap (fun e => match e with WriteZip _ a => Some a | _ => None end) evs.

(** No character of the string is the path separator. *)
Fixpoint noSlash (s : string) : Prop :=
  match s with
  | EmptyString => True
  | String c r => c ≠ "/"%char ∧ noSlash r
  end.

(** ** The specification's reading of the archive type *)

Module Spec.

(** The file extension of a key without its leading separator. *)
Definition extensionOf (key : string) : string :=
  JS.substring1 (Path.extname key).

(** The extension in lower case when there is one, [zip] otherwise. *)
Definition bundleTypeOf (key : string) : string :=
  if String.eqb (extensionOf key) "" then "zip"
  else JS.toLowerCase (extensionOf key).

End Spec.

(** ** Sample invocations *)

Module Sample.

Definition ok : Outcome unit := Returned tt.

Definition failure (msg : string) : Error := mkError (Str msg).

Definition join (a b : string) : string := a +:+ "/" +:+ b.

(** A write that adds the archive, and nothing else, to the filesystem, and
    that leaves a directory found at the path of the archive as it is. *)
Definition writeArchive (folder archive : string) (files : gmap string FileKind)
  : gmap string FileKind :=
  match files !! archive with
  | Some Directory => files
  | _ => <[archive := File]> files
  end.

(** Every collaborator succeeds; the deployment is [d-123]. *)
Definition env : Env :=
  mkEnv (fun _ => ok) (fun _ _ => ok) (fun _ _ => ok) (fun _ => ok)
    (fun _ => Returned (CodeDeploy.mkCreateDeploymentOutput (Some "d-123")))
    (fun _ _ => None) (fun _ _ => ok) writeArchive
    1700000000123 "/tmp" join.

Definition envNoApplication : Env :=
  mkEnv (fun _ => Thrown (failure "ApplicationDoesNotExistException"))
    (cd_getDeploymentGroup env) (s3_headObject env) (s3_upload env)
    (cd_createDeployment env) (cd_waitFor env) (admZip env) (zipWritten env)
    (dateNow env) (getTempLocation env) (path_join env).

Definition envUploadFails : Env :=
  mkEnv (cd_getApplication env) (cd_getDeploymentGroup env) (s3_headObject env)
    (fun _ => Thrown (failure "AccessDenied"))
    (cd_createDeployment env) (cd_waitFor env) (admZip env) (zipWritten env)
    (dateNow env) (getTempLocation env) (path_join env).

Definition envNoDeploymentId : Env :=
  mkEnv (cd_getApplication env) (cd_getDeploymentGroup env) (s3_headObject env)
    (s3_upload env)
    (fun _ => Returned (CodeDeploy.mkCreateDeploymentOutput None))
    (cd_waitFor env) (admZip env) (zipWritten env)
    (dateNow env) (getTempLocation env) (path_join env).

Definition envWaitFails : Env :=
  mkEnv (cd_getApplication env) (cd_getDeploymentGroup env) (s3_headObject env)
    (s3_upload env) (cd_createDeployment env)
    (fun _ _ => Some (failure "Resource is not in the state deploymentSuccessful"))
    (admZip env) (zipWritten env)
    (dateNow env) (getTempLocation env) (path_join env).

Definition withSource (source bundle : string) (prefix : option string)
  : TaskParameters :=
  mkTaskParameters "app" "grp" source bundle "bkt" prefix "bundle.tar"
    None None "DISALLOW" false false (Some "deploymentId") 5.

(** A folder of the workspace, a ready archive of the workspace, and an
    object already in the bucket. *)
Definition tp : TaskParameters := withSource "workspace" "/work/site" (Some "p").
Definition tpFile : TaskParameters := withSource "workspace" "/work/site.zip" None.
Definition tpEmptyPrefix : TaskParameters := withSource "workspace" "/work/site" (Some "").
Definition tpS3 : TaskParameters := withSource "s3" "/work/site" (Some "p").
Definition tpOther : TaskParameters := withSource "git" "/work/site" (Some "p").

Definition envNoGroup : Env :=
  mkEnv (cd_getApplication env)
    (fun _ _ => Thrown (failure "DeploymentGroupDoesNotExistException"))
    (s3_headObject env) (s3_upload env)
    (cd_createDeployment env) (cd_waitFor env) (admZip env) (zipWritten env)
    (dateNow env) (getTempLocation env) (path_join env).

Definition envNoObject : Env :=
  mkEnv (cd_getApplication env) (cd_getDeploymentGroup env)
    (fun _ _ => Thrown (failure "NotFound"))
    (s3_upload env)
    (cd_createDeployment env) (cd_waitFor env) (admZip env) (zipWritten env)
    (dateNow env) (getTempLocation env) (path_join env).


Definition envSubmitFails : Env :=
  mkEnv (cd_getApplication env) (cd_getDeploymentGroup env) (s3_headObject env)
    (s3_upload env)
    (fun _ => Thrown (failure "RevisionDoesNotExistException"))
    (cd_waitFor env) (admZip env) (zipWritten env)
    (dateNow env) (getTempLocation env) (path_join env).

(** A bundle path at which the workspace holds nothing. *)
Definition tpMissing : TaskParameters := withSource "workspace" "/work/nothing" (Some "p").

(** The archive the task writes for [tp] in [env]. *)
Definition archive : string := "/tmp/app.v1700000000123.zip".

Definition world : World :=
  mkWorld (<["/work/site" := Directory]> (<["/work/site.zip" := File]> ∅)) ∅.

(** The same workspace with a directory at the path of the archive. *)
Definition worldTaken : World :=
  mkWorld (<[archive := Directory]> (fs world)) ∅.

End Sample.

(** ** The task *)

Section TaskOperations.

(** The three constants imported from [./TaskParameters]. *)
Variables revisionSourceFromWorkspace revisionSourceFromS3 : string.
Variable defaultTimeoutInMins : Q.

(** The fields of the class: the two clients (with the rest of the
    environment) and the parameters of the task. *)
Variable E : Env.
Variable taskParameters : TaskParameters.

(** *** Filesystem and task-library primitives *)

(** [tl.stats(path)]: throws when nothing is at [path]. *)
Definition tl_stats (path : string) : M FileKind :=
  emit (Stats path);;
  w ← getWorld;
  match fs w !! path with
  | Some k => mret k
  | None =>
      throw (mkError (Str ("ENOENT: no such file or directory, stat '" +:+ path +:+ "'")))
  end.

(** [zip.addLocalFolder(folder); zip.writeZip(archive)]: when neither call
    throws, the filesystem is the one the library leaves; a call that throws
    is taken to have written nothing. *)
Definition zip_write (folder archive : string) : M unit :=
  emit (WriteZip folder archive);;
  await (admZip E folder archive);;
  w ← getWorld;
  putWorld (mkWorld (zipWritten E folder archive (fs w)) (variables w)).

(** [fs.createReadStream(path)]: the stream is opened lazily, nothing is
    thrown here. *)
Definition createReadStream (path : string) : M string :=
  emit (CreateReadStream path);;
  mret path.

(** [fs.unlinkSync(path)]: removes a file, throws on anything else. *)
Definition unlinkSync (path : string) : M unit :=
  emit (UnlinkSync path);;
  w ← getWorld;
  match fs w !! path with
  | Some File => putWorld (mkWorld (delete path (fs w)) (variables w))
  | Some Directory =>
      throw (mkError (Str ("EISDIR: illegal operation on a directory, unlink '" +:+ path +:+ "'")))
  | None =>
      throw (mkError (Str ("ENOENT: no such file or directory, unlink '" +:+ path +:+ "'")))
  end.

(** [tl.setVariable(name, value)]: the value is kept under the key of the
    name. *)
Definition tl_setVariable (name value : string) : M unit :=
  emit (SetVariable name value);;
  w ← getWorld;
  putWorld (mkWorld (fs w) (TaskLib.setVariable name value (variables w))).

(** *** [verifyResourcesExist] *)

Definition verifyResourcesExist : M unit :=
  tryCatch
    (emit (GetApplication (applicationName taskParameters));;
     await (cd_getApplication E (applicationName taskParameters)))
    (fun err =>
       throw (mkError (Loc "ApplicationDoesNotExist"
                           [Str (applicationName taskParameters)])));;
  tryCatch
    (emit (GetDeploymentGroup (applicationName taskParameters)
                              (deploymentGroupName taskParameters));;
     await (cd_getDeploymentGroup E (applicationName taskParameters)
                                  (deploymentGroupName taskParameters)))
    (fun err =>
       throw (mkError (Loc "DeploymentGroupDoesNotExist"
                           [Str (deploymentGroupName taskParameters);
                            Str (applicationName taskParameters)])));;
  if String.eqb (deploymentRevisionSource taskParameters) revisionSourceFromS3 then
    tryCatch
      (emit (HeadObject (bucketName taskParameters) (bundleKey taskParameters));;
       await (s3_headObject E (bucketName taskParameters) (bundleKey taskParameters)))
      (fun err =>
         throw (mkError (Loc "RevisionBundleDoesNotExist"
                             [Str (bundleKey taskParameters);
                              Str (bucketName taskParameters)])))
  else mret tt.

(** *** [createDeploymentArchive] *)

(** The path of the archive (lines 156-158). *)
Definition archivePath (applicationName : string) : string :=
  let versionSuffix := ".v" +:+ JS.showZ (dateNow E) in
  let tempDir := getTempLocation E in
  path_join E tempDir (applicationName +:+ versionSuffix +:+ ".zip").

Definition createDeploymentArchive (bundleFolder applicationName : string) : M string :=
  emit (ConsoleLog (Loc "CreatingDeploymentBundleArchiveFromFolder" [Str bundleFolder]));;
  let archive := archivePath applicationName in
  tryCatch
    (zip_write bundleFolder archive)
    (fun err =>
       emit (ConsoleLog (Loc "ZipError" [ErrorObject (message err)]));;
       throw err);;
  emit (ConsoleLog (Loc "CreatedBundleArchive" [Str archive]));;
  mret archive.

(** *** [uploadBundle] *)

(** The destination key of an archive (lines 114-120). *)
Definition bundleObjectKey (archiveName : string) : string :=
  let bundleFilename := Path.basename archiveName in
  if JS.truthy (bundlePrefix taskParameters)
  then JS.str (bundlePrefix taskParameters) +:+ "/" +:+ bundleFilename
  else bundleFilename.

Definition putObjectRequest (key fileBuffer : string) : S3.PutObjectRequest :=
  S3.mkPutObjectRequest
    (bucketName taskParameters) key fileBuffer
    (if JS.truthy (filesAcl taskParameters)
        && negb (String.eqb (JS.str (filesAcl taskParameters)) "none")
     then filesAcl taskParameters
     else None).

Definition uploadBundle : M string :=
  st ← tl_stats (revisionBundle taskParameters);
  '(archiveName, autoCreatedArchive) ←
    (if isDirectory st then
       archive ← createDeploymentArchive (revisionBundle taskParameters)
                                         (applicationName taskParameters);
       mret (archive, true)
     else mret (revisionBundle taskParameters, false));
  let key := bundleObjectKey archiveName in
  emit (ConsoleLog (Loc "UploadingBundle"
                        [Str archiveName; Str key; Str (bucketName taskParameters)]));;
  fileBuffer ← createReadStream archiveName;
  tryCatch
    (let request := putObjectRequest key fileBuffer in
     emit (Upload request);;
     await (s3_upload E request);;
     emit (ConsoleLog (Loc "BundleUploadCompleted" []));;
     (if autoCreatedArchive : bool then
        emit (ConsoleLog (Loc "DeletingUploadedBundle" [Str archiveName]));;
        unlinkSync archiveName
      else mret tt);;
     mret key)
    (fun err =>
       emit (ConsoleError (Loc "BundleUploadFailed" [message err]) err);;
       throw err).

(** What a run of [uploadBundle] on a folder emits before its upload. *)
Definition archiving (folder archive : string) : list Event :=
  [Stats folder;
   ConsoleLog (Loc "CreatingDeploymentBundleArchiveFromFolder" [Str folder]);
   WriteZip folder archive;
   ConsoleLog (Loc "CreatedBundleArchive" [Str archive]);
   ConsoleLog (Loc "UploadingBundle"
                   [Str archive; Str (bundleObjectKey archive);
                    Str (bucketName taskParameters)]);
   CreateReadStream archive].

(** *** [deployRevision] *)

(** The archive type inferred from the key (lines 179-187): first the value
    alone, then the code with the [tl.debug] line of the branch taken. *)
Definition archiveTypeOf (bundleKey : string) : string :=
  let archiveType := Path.extname bundleKey in
  if JS.truthy (Some archiveType) && (1 <? String.length archiveType)%nat
  then JS.toLowerCase (JS.substring1 archiveType)
  else "zip".

Definition inferArchiveType (bundleKey : string) : M string :=
  let archiveType := Path.extname bundleKey in
  if JS.truthy (Some archiveType) && (1 <? String.length archiveType)%nat then
    let archiveType := JS.toLowerCase (JS.substring1 archiveType) in
    emit (Debug (Str ("Setting archive type to " +:+ archiveType
                      +:+ " based on bundle file extension")));;
    mret archiveType
  else
    emit (Debug (Str "Unable to determine archive type, assuming zip"));;
    mret "zip".

Definition createDeploymentInput (bundleKey archiveType : string)
  : CodeDeploy.CreateDeploymentInput :=
  CodeDeploy.mkCreateDeploymentInput
    (applicationName taskParameters)
    (deploymentGroupName taskParameters)
    (fileExistsBehavior taskParameters)
    (ignoreApplicationStopFailures taskParameters)
    (updateOutdatedInstancesOnly taskParameters)
    (CodeDeploy.mkRevisionLocation "S3"
       (CodeDeploy.mkS3Location (bucketName taskParameters) bundleKey archiveType))
    (if JS.truthy (description taskParameters)
     then description taskParameters
     else None).

Definition deployRevision (bundleKey : string) : M string :=
  emit (ConsoleLog (Loc "DeployingRevision" []));;
  archiveType ← inferArchiveType bundleKey;
  tryCatch
    (let request := createDeploymentInput bundleKey archiveType in
     emit (CreateDeployment request);;
     response ← await (cd_createDeployment E request);
     emit (ConsoleLog (Loc "DeploymentStarted"
                           [Str (deploymentGroupName taskParameters);
                            Str (applicationName taskParameters);
                            optText (CodeDeploy.deploymentId response)]));;
     if negb (JS.truthy (CodeDeploy.deploymentId response))
     then mret ""
     else mret (JS.str (CodeDeploy.deploymentId response)))
    (fun err =>
       emit (ConsoleError (Loc "DeploymentError" [message err]) err);;
       throw err).

(** *** [setWaiterParams] and [waitForDeploymentCompletion] *)

Definition setWaiterParams (deploymentId : string) (timeout : Q)
  : M CodeDeploy.WaiterParams :=
  (if negb (Qeq_bool timeout defaultTimeoutInMins)
   then emit (ConsoleLog (Loc "SettingCustomTimeout" [Num timeout]))
   else mret tt);;
  mret (CodeDeploy.mkWaiterParams deploymentId
          (JS.Math_round ((timeout * 60) / 15)%Q)).

Definition waitForDeploymentCompletion
    (applicationName deploymentId : string) (timeout : Q) : M unit :=
  emit (ConsoleLog (Loc "WaitingForDeployment" []));;
  params ← setWaiterParams deploymentId timeout;
  emit (WaitFor "deploymentSuccessful" params);;
  match cd_waitFor E "deploymentSuccessful" params with
  | Some err =>
      throw (mkError (Loc "DeploymentFailed" [Str applicationName; message err]))
  | None =>
      emit (ConsoleLog (Loc "WaitConditionSatisifed" []))
  end.

(** *** [execute] *)

(** The [switch] on the revision source (lines 31-41). *)
Definition resolveBundleKey : M string :=
  if String.eqb (deploymentRevisionSource taskParameters) revisionSourceFromWorkspace
  then uploadBundle
  else if String.eqb (deploymentRevisionSource taskParameters) revisionSourceFromS3
  then mret (bundleKey taskParameters)
  else throw (mkError (Loc "UnknownRevisionSource"
                           [Str (deploymentRevisionSource taskParameters)])).

(** The parameters [setWaiterParams] builds for the task's timeout. *)
Definition waiterParams (deploymentId : string) : CodeDeploy.WaiterParams :=
  CodeDeploy.mkWaiterParams deploymentId
    (JS.Math_round ((timeoutInMins taskParameters * 60) / 15)%Q).

(** Lines 45-48: the output variable, when one is named. *)
Definition publishDeploymentId (deploymentId : string) : M unit :=
  if JS.truthy (outputVariable taskParameters) then
    emit (ConsoleLog (Loc "SettingOutputVariable"
                          [optText (outputVariable taskParameters)]));;
    tl_setVariable (JS.str (outputVariable taskParameters)) deploymentId
  else mret tt.

Definition execute : M unit :=
  verifyResourcesExist;;
  bundleKey ← resolveBundleKey;
  deploymentId ← deployRevision bundleKey;
  publishDeploymentId deploymentId;;
  waitForDeploymentCompletion
    (applicationName taskParameters) deploymentId (timeoutInMins taskParameters);;
  emit (ConsoleLog (Loc "TaskCompleted" [Str (applicationName taskParameters)])).

(** The stages of [execute] up to the submission (lines 29-43), and what
    follows the submission (lines 45-56). *)
Definition submitDeployment : M string :=
  verifyResourcesExist;;
  bundleKey ← resolveBundleKey;
  deployRevision bundleKey.

Definition afterSubmission (deploymentId : string) : M unit :=
  publishDeploymentId deploymentId;;
  waitForDeploymentCompletion
    (applicationName taskParameters) deploymentId (timeoutInMins taskParameters);;
  emit (ConsoleLog (Loc "TaskCompleted" [Str (applicationName taskParameters)])).

(** What follows the [switch] (lines 43-56). *)
Definition afterResolution (bundleKey : string) : M unit :=
  deploymentId ← deployRevision bundleKey;
  afterSubmission deploymentId.



(** The publication rule as the specification words it (publication is its
    stage 6): when the completion wait of a run has failed, the run has
    published nothing. *)
Definition publishedOnlyAfterSuccessfulWait : Prop :=
  ∀ w p,
    p ∈ waits (events (execute w)) →
    is_Some (cd_waitFor E "deploymentSuccessful" p) →
    published (events (execute w)) = [].

(** *** Frames

    [keeps R P m]: every run of [m] leaves a world related by [R] to the
    one it started in and emits only events that satisfy [P]. *)
Definition keeps (R : relation World) (P : Event → Prop) {A} (m : M A) : Prop :=
  ∀ w, R w (final (m w)) ∧ Forall P (events (m w)).

Definition sameFs : relation World := fun w w' => fs w' = fs w.
Definition sameVariables : relation World := fun w w' => variables w' = variables w.
Definition sameWorld : relation World := fun w w' => w' = w.

Definition notLocal (e : Event) : Prop := isLocal e = false.
(** Neither a publication of the output variable nor a wait. *)
Definition early (e : Event) : Prop :=
  match e with SetVariable _ _ | WaitFor _ _ => False | _ => True end.
Definition remote (e : Event) : Prop := notLocal e ∧ early e.

(** The existence probes, and the console. *)
Definition probe (e : Event) : Prop :=
  match e with
  | GetApplication _ | GetDeploymentGroup _ _ | HeadObject _ _ => True
  | _ => False
  end.
Definition console (e : Event) : Prop :=
  match e with
  | ConsoleLog _ | ConsoleError _ _ | Debug _ => True
  | _ => False
  end.

Definition anyWorld : relation World := fun _ _ => True.

(** An event of stage [k], or of the console other than [TaskCompleted]. *)
Definition inStage (k : nat) (e : Event) : Prop :=
  match stage e with
  | Some n => n = k
  | None => isTaskCompleted e = false
  end.

(** ** Strings and paths *)

Lemma length_append (s t : string) :
  String.length (s +:+ t) = (String.length s + String.length t)%nat.
Proof. induction s as [|c s IH]; simpl; [reflexivity | now rewrite IH]. Qed.

Lemma get_trailing (s : string) (c : ascii) :
  String.get (String.length s) (s +:+ String c EmptyString) = Some c.
Proof. induction s as [|d s IH]; simpl; [reflexivity | exact IH]. Qed.

Lemma substring_trailing (s : string) (c : ascii) :
  substring (String.length s) 1 (s +:+ String c EmptyString) = String c EmptyString.
Proof. induction s as [|d s IH]; simpl; [reflexivity | exact IH]. Qed.

Lemma ext_visit_keeps (code : ascii) (i : Z) (s : Path.ExtScan) :
  Path.startDot s ≠ (-1)%Z → Path.e_end s ≠ (-1)%Z →
  Path.startDot (Path.ext_visit code i s) = Path.startDot s
  ∧ Path.e_end (Path.ext_visit code i s) = Path.e_end s.
Proof.
  intros Hd He. unfold Path.ext_visit.
  apply Z.eqb_neq in Hd, He. rewrite He, Hd. simpl.
  destruct (Ascii.eqb code "."); [destruct (negb _) |]; simpl; auto.
Qed.

(** Once the scan has seen a dot and the end of the last component, it
    never moves either of them. *)
Lemma extname_scan_keeps (path : string) (n : nat) :
  ∀ s : Path.ExtScan,
    Path.startDot s ≠ (-1)%Z → Path.e_end s ≠ (-1)%Z →
    Path.startDot (Path.extname_scan path n s) = Path.startDot s
    ∧ Path.e_end (Path.extname_scan path n s) = Path.e_end s.
Proof.
  induction n as [|i IH]; intros s Hd He; simpl; [auto |].
  destruct (String.get i path) as [code|]; [| auto].
  destruct (Ascii.eqb code "/").
  - destruct (negb (Path.matchedSlash s)); simpl; auto.
  - destruct (ext_visit_keeps code (Z.of_nat i) s Hd He) as [Ed Ee].
    destruct (IH (Path.ext_visit code (Z.of_nat i) s)) as [Hd' He'];
      [congruence | congruence |].
    rewrite Hd', He'. auto.
Qed.

(** The extension of a key that ends in a dot is at most the dot. *)
Lemma extname_trailing_dot (s : string) :
  Path.extname (s +:+ ".") = "" ∨ Path.extname (s +:+ ".") = ".".
Proof.
  unfold Path.extname.
  rewrite length_append, Nat.add_1_r.
  cbn [Path.extname_scan]. rewrite get_trailing.
  change (Ascii.eqb "." "/") with false. cbv iota.
  change (Path.ext_visit "." (Z.of_nat (String.length s))
            (Path.mkExtScan (-1) 0 (-1) true 0))
    with (Path.mkExtScan (Z.of_nat (String.length s)) 0
            (Z.of_nat (String.length s) + 1) false 0).
  destruct (extname_scan_keeps (s +:+ ".") (String.length s)
              (Path.mkExtScan (Z.of_nat (String.length s)) 0
                 (Z.of_nat (String.length s) + 1) false 0)) as [Hd He];
    simpl; [lia | lia |].
  simpl in Hd, He.
  match goal with |- context [if ?b then _ else _] => destruct b end;
    [left; reflexivity | right].
  rewrite Hd, He. unfold JS.slice.
  replace (Z.to_nat (Z.of_nat (String.length s) + 1 - Z.of_nat (String.length s)))
    with 1%nat by lia.
  rewrite Nat2Z.id. apply substring_trailing.
Qed.

Lemma archiveTypeOf_spec (key : string) :
  archiveTypeOf key = Spec.bundleTypeOf key.
Proof.
  unfold archiveTypeOf, Spec.bundleTypeOf, Spec.extensionOf.
  destruct (Path.extname key) as [|c [|d r]]; reflexivity.
Qed.

(** ** The monad *)

Lemma bind_assoc {A B C} (m : M A) (k : A → M B) (h : B → M C) (w : World) :
  ((m ≫= k) ≫= h) w = (m ≫= (fun a => k a ≫= h)) w.
Proof.
  unfold mbind, M_bind.
  destruct (m w) as [w1 evs1 [a|e]]; [| reflexivity].
  destruct (k a w1) as [w2 evs2 [b|e]]; [| reflexivity].
  destruct (h b w2) as [w3 evs3 o]. now rewrite app_assoc.
Qed.

Lemma bind_ret {A B} (a : A) (k : A → M B) (w : World) :
  (mret a ≫= k) w = k a w.
Proof. unfold mbind, M_bind, mret, M_ret. now destruct (k a w). Qed.

Lemma bind_returned {A B} (m : M A) (k : A → M B) (w : World) (a : A) :
  outcome (m w) = Returned a →
  (m ≫= k) w
  = mkRun (final (k a (final (m w))))
          (events (m w) ++ events (k a (final (m w))))
          (outcome (k a (final (m w)))).
Proof.
  unfold mbind, M_bind. destruct (m w) as [w1 evs1 [a'|e]]; cbn; intros [= ->].
  now destruct (k a w1).
Qed.

Lemma bind_thrown {A B} (m : M A) (k : A → M B) (w : World) (e : Error) :
  outcome (m w) = Thrown e →
  (m ≫= k) w = mkRun (final (m w)) (events (m w)) (Thrown e).
Proof.
  unfold mbind, M_bind. destruct (m w) as [w1 evs1 [a|e']]; cbn; now intros [= ->].
Qed.

#[local] Instance sameFs_preorder : PreOrder sameFs.
Proof. split; unfold sameFs; [intros w | intros a b c]; congruence. Qed.

#[local] Instance sameVariables_preorder : PreOrder sameVariables.
Proof. split; unfold sameVariables; [intros w | intros a b c]; congruence. Qed.

#[local] Instance sameWorld_preorder : PreOrder sameWorld.
Proof. split; unfold sameWorld; [intros w | intros a b c]; congruence. Qed.

Section Frame.

Context (R : relation World) `{!PreOrder R} (P : Event → Prop).

Lemma keeps_ret {A} (a : A) : keeps R P (mret a).
Proof. intros w. split; [reflexivity | constructor]. Qed.

Lemma keeps_throw {A} (e : Error) : keeps R P (throw (A := A) e).
Proof. intros w. split; [reflexivity | constructor]. Qed.

Lemma keeps_await {A} (o : Outcome A) : keeps R P (await o).
Proof. intros w. split; [reflexivity | constructor]. Qed.

Lemma keeps_getWorld : keeps R P getWorld.
Proof. intros w. split; [reflexivity | constructor]. Qed.

Lemma keeps_emit (e : Event) : P e → keeps R P (emit e).
Proof. intros H w. split; [reflexivity | repeat constructor; exact H]. Qed.

Lemma keeps_bind {A B} (m : M A) (k : A → M B) :
  keeps R P m → (∀ a, keeps R P (k a)) → keeps R P (m ≫= k).
Proof.
  intros Hm Hk w. destruct (Hm w) as [Rm Pm].
  unfold mbind, M_bind.
  destruct (m w) as [w1 evs1 [a|e]]; cbn in *; [| auto].
  destruct (Hk a w1) as [Rk Pk].
  destruct (k a w1) as [w2 evs2 o]; cbn in *.
  split; [etransitivity; eassumption | apply Forall_app; auto].
Qed.

Lemma keeps_tryCatch {A} (m : M A) (h : Error → M A) :
  keeps R P m → (∀ e, keeps R P (h e)) → keeps R P (tryCatch m h).
Proof.
  intros Hm Hh w. destruct (Hm w) as [Rm Pm].
  unfold tryCatch.
  destruct (m w) as [w1 evs1 [a|e]]; cbn in *; [auto |].
  destruct (Hh e w1) as [Rh Ph].
  destruct (h e w1) as [w2 evs2 o]; cbn in *.
  split; [etransitivity; eassumption | apply Forall_app; auto].
Qed.

End Frame.

(** Splits a computation along its binds, handlers and branches, and stops
    at the calls of named operations. *)
Ltac frame :=
  repeat
    match goal with
    | |- keeps _ _ (mret _) => apply keeps_ret; apply _
    | |- keeps _ _ (throw _) => apply keeps_throw; apply _
    | |- keeps _ _ (await _) => apply keeps_await; apply _
    | |- keeps _ _ getWorld => apply keeps_getWorld; apply _
    | |- keeps _ _ (emit _) =>
        apply keeps_emit; [apply _ | first [exact I | reflexivity | repeat split]]
    | |- keeps _ _ (mbind _ _) => apply keeps_bind; [apply _ | | intros ?]
    | |- keeps _ _ (tryCatch _ _) => apply keeps_tryCatch; [apply _ | | intros ?]
    | |- keeps _ _ (if ?b then _ else _) => destruct b
    | |- keeps _ _ (match ?x with _ => _ end) => destruct x
    end.

Lemma keeps_mono {A} (R R' : relation World) (P Q : Event → Prop) (m : M A) :
  (∀ w w', R w w' → R' w w') → (∀ e, P e → Q e) → keeps R P m → keeps R' Q m.
Proof.
  intros HR HPQ Hm w. destruct (Hm w) as [Hw HP]. split; [auto |].
  eapply Forall_impl; eauto.
Qed.

Lemma sameWorld_sameFs (w w' : World) : sameWorld w w' → sameFs w w'.
Proof. unfold sameWorld, sameFs. now intros ->. Qed.

Lemma sameWorld_sameVariables (w w' : World) : sameWorld w w' → sameVariables w w'.
Proof. unfold sameWorld, sameVariables. now intros ->. Qed.

Lemma notLocal_silent (evs : list Event) :
  Forall notLocal evs → uploads evs = [] ∧ unlinked evs = [].
Proof.
  induction 1 as [|e evs He _ IH]; [split; reflexivity |].
  destruct e; try discriminate He; exact IH.
Qed.

Lemma early_silent (evs : list Event) :
  Forall early evs → published evs = [] ∧ waits evs = [].
Proof.
  induction 1 as [|e evs He _ IH]; [split; reflexivity |].
  destruct e; try contradiction He; exact IH.
Qed.

(** A variable reads as it was last set, and setting it leaves the
    variables of another key as they were. *)
Lemma lookup_setVariable_eq (name value : string) (vs : TaskLib.Variables) :
  TaskLib.setVariable name value vs !! name = Some value.
Proof. apply lookup_insert_eq. Qed.

Lemma lookup_setVariable_ne (name name' value : string) (vs : TaskLib.Variables) :
  TaskLib.getVariableKey name' ≠ TaskLib.getVariableKey name →
  TaskLib.setVariable name value vs !! name' = vs !! name'.
Proof. intros H. apply lookup_insert_ne. congruence. Qed.

Lemma tl_setVariable_keeps (P : Event → Prop) (name value : string) :
  P (SetVariable name value) → keeps sameFs P (tl_setVariable name value).
Proof. intros H w. split; [reflexivity | repeat constructor; exact H]. Qed.

Lemma tl_stats_keeps (P : Event → Prop) (path : string) :
  P (Stats path) → keeps sameWorld P (tl_stats path).
Proof.
  intros H w. unfold tl_stats, mbind, M_bind, emit, getWorld. simpl.
  destruct (fs w !! path); simpl; split;
    first [reflexivity | repeat constructor; exact H].
Qed.

Lemma zip_write_keeps (P : Event → Prop) (folder archive : string) :
  P (WriteZip folder archive) → keeps sameVariables P (zip_write folder archive).
Proof.
  intros H w. unfold zip_write, mbind, M_bind, emit, await, getWorld, putWorld. simpl.
  destruct (admZip E folder archive); simpl; split;
    first [reflexivity | repeat constructor; exact H].
Qed.

Lemma unlinkSync_keeps (P : Event → Prop) (path : string) :
  P (UnlinkSync path) → keeps sameVariables P (unlinkSync path).
Proof.
  intros H w. unfold unlinkSync, mbind, M_bind, emit, getWorld, putWorld, throw. simpl.
  destruct (fs w !! path) as [[|]|]; simpl; split;
    first [reflexivity | repeat constructor; exact H].
Qed.

Lemma probe_remote (e : Event) : probe e → remote e.
Proof. destruct e; intros []; repeat split. Qed.

Lemma console_remote (e : Event) : console e → remote e.
Proof. destruct e; intros []; repeat split. Qed.

Lemma remote_early (evs : list Event) : Forall remote evs → Forall early evs.
Proof. intros H. eapply Forall_impl; [exact H |]. now intros e [_ He]. Qed.

Lemma console_early (evs : list Event) : Forall console evs → Forall early evs.
Proof.
  intros H. eapply Forall_impl; [exact H |].
  intros e He. apply console_remote in He. apply He.
Qed.

Lemma probe_silent (evs : list Event) :
  Forall probe evs → createDeployments evs = [].
Proof.
  induction 1 as [|e evs He _ IH]; [reflexivity |].
  destruct e; try contradiction He; exact IH.
Qed.

Lemma console_silent (evs : list Event) :
  Forall console evs → createDeployments evs = [].
Proof.
  induction 1 as [|e evs He _ IH]; [reflexivity |].
  destruct e; try contradiction He; exact IH.
Qed.

Lemma verifyResourcesExist_keeps : keeps sameWorld probe verifyResourcesExist.
Proof. unfold verifyResourcesExist. frame. Qed.

Lemma inferArchiveType_run (bundleKey : string) (w : World) :
  ∃ line, inferArchiveType bundleKey w
          = mkRun w [Debug line] (Returned (archiveTypeOf bundleKey)).
Proof.
  unfold inferArchiveType, archiveTypeOf.
  destruct (_ && _); eexists; reflexivity.
Qed.

Lemma deployRevision_keeps (bundleKey : string) :
  keeps sameWorld remote (deployRevision bundleKey).
Proof. unfold deployRevision, inferArchiveType. frame. Qed.

Lemma setWaiterParams_keeps (deploymentId : string) (timeout : Q) :
  keeps sameWorld remote (setWaiterParams deploymentId timeout).
Proof. unfold setWaiterParams. frame. Qed.

Lemma waitForDeploymentCompletion_keeps (name deploymentId : string) (timeout : Q) :
  keeps sameWorld notLocal (waitForDeploymentCompletion name deploymentId timeout).
Proof.
  unfold waitForDeploymentCompletion. frame.
  apply (keeps_mono sameWorld _ remote); [auto | now intros e [H _] |].
  apply setWaiterParams_keeps.
Qed.

Lemma publishDeploymentId_keeps (deploymentId : string) :
  keeps sameFs notLocal (publishDeploymentId deploymentId).
Proof.
  unfold publishDeploymentId. frame.
  apply tl_setVariable_keeps. reflexivity.
Qed.

Lemma afterSubmission_keeps (deploymentId : string) :
  keeps sameFs notLocal (afterSubmission deploymentId).
Proof.
  unfold afterSubmission. frame.
  - apply publishDeploymentId_keeps.
  - eapply keeps_mono; [apply sameWorld_sameFs | | apply waitForDeploymentCompletion_keeps].
    auto.
Qed.

Lemma afterResolution_keeps (bundleKey : string) :
  keeps sameFs notLocal (afterResolution bundleKey).
Proof.
  unfold afterResolution. frame.
  - eapply keeps_mono; [apply sameWorld_sameFs | | apply deployRevision_keeps].
    now intros e [H _].
  - apply afterSubmission_keeps.
Qed.

Lemma createDeploymentArchive_keeps (folder name : string) :
  keeps sameVariables early (createDeploymentArchive folder name).
Proof.
  unfold createDeploymentArchive. frame.
  apply zip_write_keeps. exact I.
Qed.

Lemma uploadBundle_keeps : keeps sameVariables early uploadBundle.
Proof.
  unfold uploadBundle, createReadStream. frame.
  - apply (keeps_mono sameWorld _ early early);
      [apply sameWorld_sameVariables | auto | apply tl_stats_keeps; exact I].
  - apply createDeploymentArchive_keeps.
  - apply unlinkSync_keeps. exact I.
Qed.

Lemma resolveBundleKey_keeps : keeps sameVariables early resolveBundleKey.
Proof. unfold resolveBundleKey. frame. apply uploadBundle_keeps. Qed.

Lemma submitDeployment_keeps : keeps sameVariables early submitDeployment.
Proof.
  unfold submitDeployment. frame.
  - eapply keeps_mono;
      [apply sameWorld_sameVariables | | apply verifyResourcesExist_keeps].
    intros e H. apply probe_remote in H. apply H.
  - apply resolveBundleKey_keeps.
  - eapply keeps_mono; [apply sameWorld_sameVariables | | apply deployRevision_keeps].
    now intros e [_ H].
Qed.

(** ** Running the stages *)

(** Unfolds the monad on a run whose shape is known. *)
Ltac run :=
  unfold mbind, M_bind, mret, M_ret, tryCatch, emit, await, throw, getWorld, putWorld;
  cbn [final events outcome fs variables isDirectory app].

Lemma verifyResourcesExist_final (w : World) : final (verifyResourcesExist w) = w.
Proof. apply (verifyResourcesExist_keeps w). Qed.

(** [execute] is its precondition check followed by the rest. *)
Lemma execute_verified (w : World) :
  outcome (verifyResourcesExist w) = Returned tt →
  execute w
  = let r := (resolveBundleKey ≫= afterResolution) w in
    mkRun (final r) (events (verifyResourcesExist w) ++ events r) (outcome r).
Proof.
  intros H.
  change execute with (verifyResourcesExist ≫= fun _ => resolveBundleKey ≫= afterResolution).
  rewrite (bind_returned _ _ _ _ H), verifyResourcesExist_final. reflexivity.
Qed.

Lemma execute_submitted (w : World) :
  execute w = (submitDeployment ≫= afterSubmission) w.
Proof.
  change execute with
    (verifyResourcesExist ≫= fun _ =>
       resolveBundleKey ≫= fun bundleKey =>
         deployRevision bundleKey ≫= afterSubmission).
  unfold submitDeployment. rewrite bind_assoc.
  destruct (outcome (verifyResourcesExist w)) as [[]|e] eqn:Hv.
  - rewrite !(bind_returned _ _ _ _ Hv), bind_assoc. reflexivity.
  - rewrite !(bind_thrown _ _ _ _ Hv). reflexivity.
Qed.

Lemma deployRevision_run (bundleKey : string) (w : World) :
  ∃ line,
    let request := createDeploymentInput bundleKey (archiveTypeOf bundleKey) in
    deployRevision bundleKey w
    = match cd_createDeployment E request with
      | Returned response =>
          mkRun w
            [ConsoleLog (Loc "DeployingRevision" []); Debug line;
             CreateDeployment request;
             ConsoleLog (Loc "DeploymentStarted"
                             [Str (deploymentGroupName taskParameters);
                              Str (applicationName taskParameters);
                              optText (CodeDeploy.deploymentId response)])]
            (Returned (if negb (JS.truthy (CodeDeploy.deploymentId response))
                       then ""
                       else JS.str (CodeDeploy.deploymentId response)))
      | Thrown err =>
          mkRun w
            [ConsoleLog (Loc "DeployingRevision" []); Debug line;
             CreateDeployment request;
             ConsoleError (Loc "DeploymentError" [message err]) err]
            (Thrown err)
      end.
Proof.
  destruct (inferArchiveType_run bundleKey w) as [line Hl].
  exists line. unfold deployRevision. run. rewrite Hl. run.
  destruct (cd_createDeployment E _) as [response|err]; run; [| reflexivity].
  destruct (negb _); reflexivity.
Qed.

Lemma publishDeploymentId_run (deploymentId : string) (w : World) :
  publishDeploymentId deploymentId w
  = if JS.truthy (outputVariable taskParameters)
    then mkRun (mkWorld (fs w)
                  (TaskLib.setVariable (JS.str (outputVariable taskParameters))
                     deploymentId (variables w)))
           [ConsoleLog (Loc "SettingOutputVariable"
                            [optText (outputVariable taskParameters)]);
            SetVariable (JS.str (outputVariable taskParameters)) deploymentId]
           (Returned tt)
    else mkRun w [] (Returned tt).
Proof.
  unfold publishDeploymentId, tl_setVariable.
  destruct (JS.truthy _); reflexivity.
Qed.

Lemma waitForDeploymentCompletion_run (name deploymentId : string) (w : World) :
  ∃ pre,
    Forall console pre
    ∧ waitForDeploymentCompletion name deploymentId (timeoutInMins taskParameters) w
      = match cd_waitFor E "deploymentSuccessful" (waiterParams deploymentId) with
        | Some err =>
            mkRun w (pre ++ [WaitFor "deploymentSuccessful" (waiterParams deploymentId)])
              (Thrown (mkError (Loc "DeploymentFailed" [Str name; message err])))
        | None =>
            mkRun w (pre ++ [WaitFor "deploymentSuccessful" (waiterParams deploymentId);
                             ConsoleLog (Loc "WaitConditionSatisifed" [])])
              (Returned tt)
        end.
Proof.
  unfold waitForDeploymentCompletion, setWaiterParams.
  fold (waiterParams deploymentId).
  destruct (negb _); run.
  - exists [ConsoleLog (Loc "WaitingForDeployment" []);
            ConsoleLog (Loc "SettingCustomTimeout" [Num (timeoutInMins taskParameters)])].
    split; [repeat constructor |].
    destruct (cd_waitFor E _ _); reflexivity.
  - exists [ConsoleLog (Loc "WaitingForDeployment" [])].
    split; [repeat constructor |].
    destruct (cd_waitFor E _ _); reflexivity.
Qed.

Lemma afterSubmission_run (deploymentId : string) (w : World) :
  afterSubmission deploymentId w
  = let p := publishDeploymentId deploymentId w in
    let r := waitForDeploymentCompletion (applicationName taskParameters)
               deploymentId (timeoutInMins taskParameters) (final p) in
    match outcome r with
    | Returned _ =>
        mkRun (final r)
          (events p ++ events r
             ++ [ConsoleLog (Loc "TaskCompleted" [Str (applicationName taskParameters)])])
          (Returned tt)
    | Thrown err => mkRun (final r) (events p ++ events r) (Thrown err)
    end.
Proof.
  assert (Hp : outcome (publishDeploymentId deploymentId w) = Returned tt).
  { rewrite publishDeploymentId_run. destruct (JS.truthy _); reflexivity. }
  unfold afterSubmission. rewrite (bind_returned _ _ _ _ Hp). cbn zeta.
  destruct (outcome (waitForDeploymentCompletion _ _ _
                       (final (publishDeploymentId deploymentId w))))
    as [[]|err] eqn:Hw.
  - rewrite (bind_returned _ _ _ _ Hw). reflexivity.
  - rewrite (bind_thrown _ _ _ _ Hw). reflexivity.
Qed.

(** The three ways [uploadBundle] can start, by what is at the bundle's
    path. *)
Lemma uploadBundle_missing (w : World) :
  fs w !! revisionBundle taskParameters = None →
  uploads (events (uploadBundle w)) = []
  ∧ unlinked (events (uploadBundle w)) = []
  ∧ final (uploadBundle w) = w
  ∧ ∃ err, outcome (uploadBundle w) = Thrown err.
Proof.
  intros H. unfold uploadBundle, tl_stats. run. rewrite H. run.
  repeat split; eauto.
Qed.

Lemma uploadBundle_file (w : World) :
  fs w !! revisionBundle taskParameters = Some File →
  let archive := revisionBundle taskParameters in
  let key := bundleObjectKey archive in
  let request := putObjectRequest key archive in
  uploadBundle w
  = match s3_upload E request with
    | Returned _ =>
        mkRun w
          [Stats archive;
           ConsoleLog (Loc "UploadingBundle"
                           [Str archive; Str key; Str (bucketName taskParameters)]);
           CreateReadStream archive;
           Upload request;
           ConsoleLog (Loc "BundleUploadCompleted" [])]
          (Returned key)
    | Thrown err =>
        mkRun w
          [Stats archive;
           ConsoleLog (Loc "UploadingBundle"
                           [Str archive; Str key; Str (bucketName taskParameters)]);
           CreateReadStream archive;
           Upload request;
           ConsoleError (Loc "BundleUploadFailed" [message err]) err]
          (Thrown err)
    end.
Proof.
  intros H archive key request.
  unfold uploadBundle, tl_stats, createReadStream. run. rewrite H. run.
  fold archive key request.
  destruct (s3_upload E request) as [[]|err]; reflexivity.
Qed.

Lemma uploadBundle_directory (w : World) :
  fs w !! revisionBundle taskParameters = Some Directory →
  let folder := revisionBundle taskParameters in
  let archive := archivePath (applicationName taskParameters) in
  let key := bundleObjectKey archive in
  let request := putObjectRequest key archive in
  let zipped := archiving folder archive ++ [Upload request] in
  let written := zipWritten E folder archive (fs w) in
  let removing :=
    zipped ++ [ConsoleLog (Loc "BundleUploadCompleted" []);
               ConsoleLog (Loc "DeletingUploadedBundle" [Str archive]);
               UnlinkSync archive] in
  let failed err :=
    mkRun (mkWorld written (variables w))
      (removing ++ [ConsoleError (Loc "BundleUploadFailed" [message err]) err])
      (Thrown err) in
  uploadBundle w
  = match admZip E folder archive with
    | Thrown err =>
        mkRun w
          [Stats folder;
           ConsoleLog (Loc "CreatingDeploymentBundleArchiveFromFolder" [Str folder]);
           WriteZip folder archive;
           ConsoleLog (Loc "ZipError" [ErrorObject (message err)])]
          (Thrown err)
    | Returned _ =>
        match s3_upload E request with
        | Returned _ =>
            match written !! archive with
            | Some File =>
                mkRun (mkWorld (delete archive written) (variables w)) removing
                  (Returned key)
            | Some Directory =>
                failed (mkError (Str ("EISDIR: illegal operation on a directory, unlink '"
                                      +:+ archive +:+ "'")))
            | None =>
                failed (mkError (Str ("ENOENT: no such file or directory, unlink '"
                                      +:+ archive +:+ "'")))
            end
        | Thrown err =>
            mkRun (mkWorld written (variables w))
              (zipped ++ [ConsoleError (Loc "BundleUploadFailed" [message err]) err])
              (Thrown err)
        end
    end.
Proof.
  intros H folder archive key request zipped written removing failed.
  unfold uploadBundle, tl_stats, createDeploymentArchive, zip_write,
    createReadStream, unlinkSync.
  run. rewrite H. run. fold folder archive.
  destruct (admZip E folder archive) as [[]|err]; run; [| reflexivity].
  fold key request written.
  destruct (s3_upload E request) as [[]|err]; run; [| reflexivity].
  destruct (written !! archive) as [[|]|]; reflexivity.
Qed.

(** C3.  When the probe [getApplication] fails, [execute] ends at once with
    the error [ApplicationDoesNotExist] that carries the application name:
    the probe is the only call of the run, so that neither an upload nor a
    [createDeployment] is attempted, and the world is left as it was. *)
Theorem application_missing_aborts (w : World) (err : Error) :
  cd_getApplication E (applicationName taskParameters) = Thrown err →
  execute w
  = mkRun w [GetApplication (applicationName taskParameters)]
      (Thrown (mkError (Loc "ApplicationDoesNotExist"
                            [Str (applicationName taskParameters)])))
  ∧ uploads (events (execute w)) = []
  ∧ createDeployments (events (execute w)) = [].
Proof.
  intros H.
  assert (Hx : execute w
    = mkRun w [GetApplication (applicationName taskParameters)]
        (Thrown (mkError (Loc "ApplicationDoesNotExist"
                              [Str (applicationName taskParameters)])))).
  { unfold execute, verifyResourcesExist. run. rewrite H. run. reflexivity. }
  rewrite Hx. repeat split; reflexivity.
Qed.

(** ** Rounding *)

Lemma Qfloor_unique (z : Z) (x : Q) :
  (inject_Z z <= x)%Q → (x < inject_Z (z + 1))%Q → Qfloor x = z.
Proof.
  intros Hle Hlt.
  assert (H1 : (z <= Qfloor x)%Z).
  { rewrite <- (Qfloor_Z z). now apply Qfloor_resp_le. }
  assert (H2 : (Qfloor x < z + 1)%Z).
  { rewrite Zlt_Qlt. eapply Qle_lt_trans; [apply Qfloor_le | exact Hlt]. }
  lia.
Qed.

(** [Math.round] gives the nearest integer, the upper one on a tie. *)
Lemma Math_round_nearest (x : Q) :
  (inject_Z (JS.Math_round x) - (1 # 2) <= x)%Q
  ∧ (x < inject_Z (JS.Math_round x) + (1 # 2))%Q.
Proof.
  unfold JS.Math_round.
  pose proof (Qfloor_le (x + (1 # 2))) as Hle.
  pose proof (Qlt_floor (x + (1 # 2))) as Hlt.
  rewrite inject_Z_plus in Hlt. change (inject_Z 1) with 1%Q in Hlt.
  split; lra.
Qed.

(** A whole number of minutes gives four attempts a minute. *)
Lemma Math_round_minutes (t : Z) :
  JS.Math_round ((inject_Z t * 60) / 15)%Q = (4 * t)%Z.
Proof.
  unfold JS.Math_round.
  assert (H : ((inject_Z t * 60) / 15 == 4 * inject_Z t)%Q) by field.
  apply Qfloor_unique.
  - rewrite inject_Z_mult. change (inject_Z 4) with 4%Q. lra.
  - rewrite inject_Z_plus, inject_Z_mult.
    change (inject_Z 4) with 4%Q. change (inject_Z 1) with 1%Q. lra.
Qed.

(** ** The submission *)

Lemma deployRevision_requests (bundleKey : string) (w : World) :
  createDeployments (events (deployRevision bundleKey w))
  = [createDeploymentInput bundleKey (archiveTypeOf bundleKey)].
Proof.
  destruct (deployRevision_run bundleKey w) as [line H]. cbn zeta in H.
  rewrite H. destruct (cd_createDeployment E _); reflexivity.
Qed.

(** C5.  The [bundleType] of the one request [deployRevision] sends to
    [createDeployment] is the extension of the bundle key without its
    separator, in lower case, when that extension is not empty, and [zip]
    otherwise; the request carries the key unchanged.  The key
    [bundle.tar] gives [tar], the key [bundle] gives [zip]. *)
Theorem bundle_type_from_extension :
  (∀ (bundleKey : string) (w : World),
      bundleTypes (events (deployRevision bundleKey w)) = [Spec.bundleTypeOf bundleKey]
      ∧ map (fun r => CodeDeploy.key (CodeDeploy.s3Location (CodeDeploy.revision r)))
            (createDeployments (events (deployRevision bundleKey w)))
        = [bundleKey])
  ∧ (∀ w, bundleTypes (events (deployRevision "bundle.tar" w)) = ["tar"])
  ∧ (∀ w, bundleTypes (events (deployRevision "bundle" w)) = ["zip"]).
Proof.
  assert (H : ∀ k w, bundleTypes (events (deployRevision k w)) = [Spec.bundleTypeOf k]).
  { intros k w. unfold bundleTypes. rewrite deployRevision_requests.
    cbn. now rewrite archiveTypeOf_spec. }
  split; [| split].
  - intros k w. split; [apply H |]. now rewrite deployRevision_requests.
  - intros w. now rewrite H.
  - intros w. now rewrite H.
Qed.

(** C10.  For a bundle key that ends in a dot, such as [bundle.], the
    [bundleType] sent to [createDeployment] is the default [zip], not the
    empty string: the extension is then at most the separator, and it is
    taken as no extension. *)
Theorem trailing_dot_defaults_to_zip :
  (∀ (s : string) (w : World),
      bundleTypes (events (deployRevision (s +:+ ".") w)) = ["zip"]
      ∧ Spec.extensionOf (s +:+ ".") = "")
  ∧ (∀ w, bundleTypes (events (deployRevision "bundle." w)) = ["zip"]).
Proof.
  assert (H : ∀ s w, bundleTypes (events (deployRevision (s +:+ ".") w)) = ["zip"]
                     ∧ Spec.extensionOf (s +:+ ".") = "").
  { intros s w. unfold bundleTypes. rewrite deployRevision_requests. cbn.
    unfold archiveTypeOf, Spec.extensionOf.
    destruct (extname_trailing_dot s) as [-> | ->]; split; reflexivity. }
  split; [exact H |].
  intros w. exact (proj1 (H "bundle" w)).
Qed.

(** C8.  When [createDeployment] accepts the request and its answer holds
    no deployment identifier, [deployRevision] returns the empty string, and
    what follows in [execute] goes on to the completion wait with that empty
    identifier: [waitFor] is called once, and the run ends as the wait
    decides. *)
Theorem missing_deployment_id_continues (bundleKey : string) (w : World) :
  cd_createDeployment E (createDeploymentInput bundleKey (archiveTypeOf bundleKey))
  = Returned (CodeDeploy.mkCreateDeploymentOutput None) →
  outcome (deployRevision bundleKey w) = Returned ""
  ∧ waits (events (afterResolution bundleKey w)) = [waiterParams ""]
  ∧ outcome (afterResolution bundleKey w)
    = match cd_waitFor E "deploymentSuccessful" (waiterParams "") with
      | Some err =>
          Thrown (mkError (Loc "DeploymentFailed"
                               [Str (applicationName taskParameters); message err]))
      | None => Returned tt
      end.
Proof.
  intros H.
  destruct (deployRevision_run bundleKey w) as [line Hd]. cbn zeta in Hd.
  rewrite H in Hd. cbn in Hd.
  assert (Ho : outcome (deployRevision bundleKey w) = Returned "")
    by now rewrite Hd.
  split; [exact Ho |].
  unfold afterResolution. rewrite (bind_returned _ _ _ _ Ho), Hd.
  cbn [final events outcome]. rewrite afterSubmission_run. cbn zeta.
  set (p := publishDeploymentId "" w).
  destruct (waitForDeploymentCompletion_run (applicationName taskParameters) ""
              (final p)) as (pre & Hpre & Hw).
  pose proof (proj2 (early_silent _ (console_early _ Hpre))) as Hpre'.
  assert (Hp : waits (events p) = []).
  { subst p. rewrite publishDeploymentId_run. destruct (JS.truthy _); reflexivity. }
  rewrite Hw. unfold waits in *.
  destruct (cd_waitFor E _ _); cbn [final events outcome];
    rewrite !omap_app, Hp, Hpre'; split; reflexivity.
Qed.

(** ** After the submission: publication, then the wait *)

Lemma afterSubmission_shape (deploymentId : string) (w : World) :
  ∃ pre post,
    events (afterSubmission deploymentId w)
    = events (publishDeploymentId deploymentId w)
        ++ pre ++ WaitFor "deploymentSuccessful" (waiterParams deploymentId) :: post
    ∧ Forall console pre ∧ Forall console post
    ∧ final (afterSubmission deploymentId w)
      = final (publishDeploymentId deploymentId w)
    ∧ outcome (afterSubmission deploymentId w)
      = match cd_waitFor E "deploymentSuccessful" (waiterParams deploymentId) with
        | Some err =>
            Thrown (mkError (Loc "DeploymentFailed"
                                 [Str (applicationName taskParameters); message err]))
        | None => Returned tt
        end.
Proof.
  rewrite afterSubmission_run. cbn zeta.
  set (p := publishDeploymentId deploymentId w).
  destruct (waitForDeploymentCompletion_run (applicationName taskParameters)
              deploymentId (final p)) as (pre & Hpre & Hw).
  rewrite Hw. exists pre.
  destruct (cd_waitFor E _ _) as [err|]; cbn [final events outcome].
  - exists []. repeat split; auto.
  - exists [ConsoleLog (Loc "WaitConditionSatisifed" []);
            ConsoleLog (Loc "TaskCompleted" [Str (applicationName taskParameters)])].
    rewrite <- !app_assoc. repeat split; auto; repeat constructor.
Qed.


Lemma publishDeploymentId_waits (deploymentId : string) (w : World) :
  waits (events (publishDeploymentId deploymentId w)) = [].
Proof. rewrite publishDeploymentId_run. destruct (JS.truthy _); reflexivity. Qed.

Lemma afterSubmission_waits (deploymentId : string) (w : World) :
  waits (events (afterSubmission deploymentId w)) = [waiterParams deploymentId].
Proof.
  destruct (afterSubmission_shape deploymentId w) as (pre & post & -> & Hpre & Hpost & _).
  apply console_early, early_silent in Hpre, Hpost.
  unfold waits in *. rewrite !omap_app, publishDeploymentId_waits.
  cbn. rewrite (proj2 Hpre), (proj2 Hpost). reflexivity.
Qed.

(** What [execute] asks the waiter, by how the submission ended. *)
Lemma execute_waits (w : World) :
  waits (events (execute w))
  = match outcome (submitDeployment w) with
    | Returned deploymentId => [waiterParams deploymentId]
    | Thrown _ => []
    end.
Proof.
  rewrite execute_submitted.
  pose proof (proj2 (early_silent _ (proj2 (submitDeployment_keeps w)))) as Hs.
  destruct (outcome (submitDeployment w)) as [id|err] eqn:Ho.
  - rewrite (bind_returned _ _ _ _ Ho). cbn [events].
    unfold waits in *. rewrite omap_app, Hs. apply afterSubmission_waits.
  - rewrite (bind_thrown _ _ _ _ Ho). exact Hs.
Qed.

(** C7.  The [maxAttempts] that [setWaiterParams] hands to the waiter is
    [Math.round((timeout * 60) / 15)], the integer nearest to
    [timeout * 60 / 15]; every [waitFor] of [execute] carries it for the
    task's [timeoutInMins]; a whole number of minutes gives four attempts a
    minute, and a timeout of 5 minutes gives 20 attempts. *)
Theorem max_attempts_from_timeout :
  (∀ (deploymentId : string) (timeout : Q) (w : World),
      outcome (setWaiterParams deploymentId timeout w)
      = Returned (CodeDeploy.mkWaiterParams deploymentId
                    (JS.Math_round ((timeout * 60) / 15)%Q)))
  ∧ (∀ w, Forall (fun p => CodeDeploy.maxAttempts p
                           = JS.Math_round ((timeoutInMins taskParameters * 60) / 15)%Q)
                 (waits (events (execute w))))
  ∧ (∀ timeout : Q,
        (inject_Z (JS.Math_round ((timeout * 60) / 15)) - (1 # 2)
         <= (timeout * 60) / 15)%Q
        ∧ ((timeout * 60) / 15
           < inject_Z (JS.Math_round ((timeout * 60) / 15)) + (1 # 2))%Q)
  ∧ (∀ (deploymentId : string) (t : Z) (w : World),
        outcome (setWaiterParams deploymentId (inject_Z t) w)
        = Returned (CodeDeploy.mkWaiterParams deploymentId (4 * t)))
  ∧ (∀ (deploymentId : string) (w : World),
        outcome (setWaiterParams deploymentId 5 w)
        = Returned (CodeDeploy.mkWaiterParams deploymentId 20)).
Proof.
  assert (H : ∀ id timeout w,
             outcome (setWaiterParams id timeout w)
             = Returned (CodeDeploy.mkWaiterParams id
                           (JS.Math_round ((timeout * 60) / 15)%Q))).
  { intros id timeout w. unfold setWaiterParams. run.
    destruct (negb _); reflexivity. }
  split; [exact H | split; [| split; [| split]]].
  - intros w. rewrite execute_waits.
    destruct (outcome (submitDeployment w)); repeat constructor.
  - intros timeout. apply Math_round_nearest.
  - intros id t w. now rewrite H, Math_round_minutes.
  - intros id w. now rewrite H.
Qed.

(** C1, as the code has it.  When an output variable is named, [execute]
    publishes the deployment identifier as soon as the submission has
    returned it and before the completion wait is started: the variable
    holds the identifier at the end of the run whether the wait succeeds or
    fails, the one [setVariable] precedes the one [waitFor], and the run
    ends as the wait decides.  When no output variable is named, or when a
    stage up to the submission fails, nothing is published. *)
Theorem deployment_id_published_before_wait (w : World) :
  (∀ deploymentId : string,
      outcome (submitDeployment w) = Returned deploymentId →
      JS.truthy (outputVariable taskParameters) = true →
      published (events (execute w))
      = [(JS.str (outputVariable taskParameters), deploymentId)]
      ∧ variables (final (execute w)) !! JS.str (outputVariable taskParameters)
        = Some deploymentId
      ∧ (∃ pre post,
            events (execute w)
            = pre ++ SetVariable (JS.str (outputVariable taskParameters)) deploymentId
                  :: post
            ∧ waits pre = [] ∧ published pre = []
            ∧ waits post = [waiterParams deploymentId] ∧ published post = [])
      ∧ outcome (execute w)
        = match cd_waitFor E "deploymentSuccessful" (waiterParams deploymentId) with
          | Some err =>
              Thrown (mkError (Loc "DeploymentFailed"
                                   [Str (applicationName taskParameters); message err]))
          | None => Returned tt
          end)
  ∧ (∀ deploymentId : string,
        outcome (submitDeployment w) = Returned deploymentId →
        JS.truthy (outputVariable taskParameters) = false →
        published (events (execute w)) = []
        ∧ variables (final (execute w)) = variables w)
  ∧ (∀ err : Error,
        outcome (submitDeployment w) = Thrown err →
        outcome (execute w) = Thrown err
        ∧ published (events (execute w)) = []
        ∧ variables (final (execute w)) = variables w).
Proof.
  destruct (submitDeployment_keeps w) as [Hv He].
  destruct (early_silent _ He) as [Hpub Hwait].
  rewrite execute_submitted.
  split; [| split].
  - intros id Ho Ht. rewrite (bind_returned _ _ _ _ Ho). cbn [final events outcome].
    destruct (afterSubmission_shape id (final (submitDeployment w)))
      as (pre & post & Hev & Hpre & Hpost & Hfin & Hout).
    rewrite publishDeploymentId_run, Ht in Hev, Hfin. cbn [final events] in Hev, Hfin.
    apply console_early, early_silent in Hpre, Hpost.
    destruct Hpre as [Hpre1 Hpre2], Hpost as [Hpost1 Hpost2].
    rewrite Hev, Hfin, Hout. cbn [variables].
    split; [| split; [apply lookup_setVariable_eq | split; [| reflexivity]]].
    + unfold published in *. rewrite !omap_app, Hpub, Hpre1. cbn.
      now rewrite Hpost1.
    + exists (events (submitDeployment w)
                ++ [ConsoleLog (Loc "SettingOutputVariable"
                                    [optText (outputVariable taskParameters)])]).
      exists (pre ++ WaitFor "deploymentSuccessful" (waiterParams id) :: post).
      unfold published, waits in *.
      rewrite !omap_app, Hpub, Hwait, Hpre1, Hpre2. cbn.
      rewrite Hpost1, Hpost2, <- app_assoc. repeat split; reflexivity.
  - intros id Ho Ht. rewrite (bind_returned _ _ _ _ Ho). cbn [final events outcome].
    destruct (afterSubmission_shape id (final (submitDeployment w)))
      as (pre & post & Hev & Hpre & Hpost & Hfin & _).
    rewrite publishDeploymentId_run, Ht in Hev, Hfin. cbn [final events] in Hev, Hfin.
    apply console_early, early_silent in Hpre, Hpost.
    rewrite Hev, Hfin. split; [| exact Hv].
    unfold published in *. rewrite !omap_app, Hpub, (proj1 Hpre). cbn.
    now rewrite (proj1 Hpost).
  - intros err Ho. rewrite (bind_thrown _ _ _ _ Ho). cbn [final events outcome].
    repeat split; auto.
Qed.

(** ** The object key of an upload *)

Lemma uploadBundle_upload_key (w : World) :
  Forall (fun r => S3.Key r = bundleObjectKey (S3.Body r))
         (uploads (events (uploadBundle w))).
Proof.
  destruct (fs w !! revisionBundle taskParameters) as [[|]|] eqn:H.
  - rewrite (uploadBundle_file w H).
    destruct (s3_upload E _); repeat constructor.
  - rewrite (uploadBundle_directory w H).
    destruct (admZip E _ _); [| constructor].
    destruct (s3_upload E _); [destruct (zipWritten E _ _ _ !! _) as [[|]|] |];
      repeat constructor.
  - rewrite (proj1 (uploadBundle_missing w H)). constructor.
Qed.

Lemma string_not_with_slash (s : string) : s ≠ "/" +:+ s.
Proof.
  intros H. apply (f_equal String.length) in H. rewrite length_append in H.
  cbn in H. lia.
Qed.

(** C6.  The key under which [uploadBundle] puts the archive is the base
    name of the archive's path when no bundle prefix is set, and the prefix,
    a slash and the base name when a prefix is set (and is not empty); with
    the prefix [p] and the base name [app.v123.zip] the key is
    [p/app.v123.zip]. *)
Theorem object_key_from_prefix :
  (bundlePrefix taskParameters = None →
     (∀ archive, bundleObjectKey archive = Path.basename archive)
     ∧ ∀ w, Forall (fun r => S3.Key r = Path.basename (S3.Body r))
                   (uploads (events (uploadBundle w))))
  ∧ (∀ prefix : string,
        bundlePrefix taskParameters = Some prefix → prefix ≠ "" →
        (∀ archive, bundleObjectKey archive = prefix +:+ "/" +:+ Path.basename archive)
        ∧ ∀ w, Forall (fun r => S3.Key r
                                = prefix +:+ "/" +:+ Path.basename (S3.Body r))
                      (uploads (events (uploadBundle w))))
  ∧ (bundlePrefix taskParameters = Some "p" →
     ∀ archive, Path.basename archive = "app.v123.zip" →
                bundleObjectKey archive = "p/app.v123.zip").
Proof.
  split; [| split].
  - intros H.
    assert (Hk : ∀ archive, bundleObjectKey archive = Path.basename archive).
    { intros archive. unfold bundleObjectKey. now rewrite H. }
    split; [exact Hk |]. intros w.
    eapply Forall_impl; [apply uploadBundle_upload_key |].
    intros r Hr. cbn beta in Hr. now rewrite Hr.
  - intros prefix H Hne.
    assert (Hk : ∀ archive,
               bundleObjectKey archive = prefix +:+ "/" +:+ Path.basename archive).
    { intros archive. unfold bundleObjectKey. rewrite H. cbn.
      apply String.eqb_neq in Hne. now rewrite Hne. }
    split; [exact Hk |]. intros w.
    eapply Forall_impl; [apply uploadBundle_upload_key |].
    intros r Hr. cbn beta in Hr. now rewrite Hr.
  - intros H archive Hb. unfold bundleObjectKey. rewrite H, Hb. reflexivity.
Qed.

(** C9.  An empty bundle prefix counts as no prefix: the key is the base
    name of the archive's path, without a slash in front of it. *)
Theorem empty_prefix_is_no_prefix :
  bundlePrefix taskParameters = Some "" →
  (∀ archive,
      bundleObjectKey archive = Path.basename archive
      ∧ bundleObjectKey archive ≠ "/" +:+ Path.basename archive)
  ∧ ∀ w, Forall (fun r => S3.Key r = Path.basename (S3.Body r)
                          ∧ S3.Key r ≠ "/" +:+ Path.basename (S3.Body r))
                (uploads (events (uploadBundle w))).
Proof.
  intros H.
  assert (Hk : ∀ archive, bundleObjectKey archive = Path.basename archive).
  { intros archive. unfold bundleObjectKey. now rewrite H. }
  split.
  - intros archive. rewrite Hk. split; [reflexivity | apply string_not_with_slash].
  - intros w. eapply Forall_impl; [apply uploadBundle_upload_key |].
    intros r Hr. cbn beta in Hr. rewrite Hr, Hk.
    split; [reflexivity | apply string_not_with_slash].
Qed.

(** ** The revision source *)

Lemma verifyResourcesExist_silent (w : World) :
  uploads (events (verifyResourcesExist w)) = []
  ∧ unlinked (events (verifyResourcesExist w)) = []
  ∧ createDeployments (events (verifyResourcesExist w)) = []
  ∧ Forall notLocal (events (verifyResourcesExist w)).
Proof.
  destruct (verifyResourcesExist_keeps w) as [_ H].
  assert (Hl : Forall notLocal (events (verifyResourcesExist w))).
  { eapply Forall_impl; [exact H |]. intros e He. apply probe_remote in He. apply He. }
  destruct (notLocal_silent _ Hl) as [Hu Hd].
  repeat split; auto. now apply probe_silent.
Qed.

Lemma afterResolution_silent (bundleKey : string) (w : World) :
  uploads (events (afterResolution bundleKey w)) = []
  ∧ unlinked (events (afterResolution bundleKey w)) = []
  ∧ fs (final (afterResolution bundleKey w)) = fs w.
Proof.
  destruct (afterResolution_keeps bundleKey w) as [Hf H].
  destruct (notLocal_silent _ H). auto.
Qed.

Lemma afterSubmission_requests (deploymentId : string) (w : World) :
  createDeployments (events (afterSubmission deploymentId w)) = [].
Proof.
  destruct (afterSubmission_shape deploymentId w) as (pre & post & -> & Hpre & Hpost & _).
  apply console_silent in Hpre, Hpost.
  unfold createDeployments in *. rewrite !omap_app, Hpre. cbn. rewrite Hpost.
  rewrite publishDeploymentId_run. destruct (JS.truthy _); reflexivity.
Qed.

Lemma afterResolution_requests (bundleKey : string) (w : World) :
  createDeployments (events (afterResolution bundleKey w))
  = [createDeploymentInput bundleKey (archiveTypeOf bundleKey)].
Proof.
  pose proof (deployRevision_requests bundleKey w) as Hd.
  unfold afterResolution.
  destruct (outcome (deployRevision bundleKey w)) as [id|err] eqn:Ho.
  - rewrite (bind_returned _ _ _ _ Ho). cbn [events].
    pose proof (afterSubmission_requests id (final (deployRevision bundleKey w))) as Ha.
    unfold createDeployments in *.
    now rewrite omap_app, Hd, Ha.
  - now rewrite (bind_thrown _ _ _ _ Ho).
Qed.

Lemma execute_workspace (w : World) :
  deploymentRevisionSource taskParameters = revisionSourceFromWorkspace →
  outcome (verifyResourcesExist w) = Returned tt →
  execute w
  = let r := (uploadBundle ≫= afterResolution) w in
    mkRun (final r) (events (verifyResourcesExist w) ++ events r) (outcome r).
Proof.
  intros Hs Hv. rewrite (execute_verified w Hv).
  unfold resolveBundleKey. now rewrite Hs, String.eqb_refl.
Qed.

Lemma execute_s3 (w : World) :
  revisionSourceFromWorkspace ≠ revisionSourceFromS3 →
  deploymentRevisionSource taskParameters = revisionSourceFromS3 →
  outcome (verifyResourcesExist w) = Returned tt →
  execute w
  = let r := afterResolution (bundleKey taskParameters) w in
    mkRun (final r) (events (verifyResourcesExist w) ++ events r) (outcome r).
Proof.
  intros Hne Hs Hv. rewrite (execute_verified w Hv).
  unfold resolveBundleKey. rewrite Hs, String.eqb_refl.
  assert (Hf : String.eqb revisionSourceFromS3 revisionSourceFromWorkspace = false)
    by (apply String.eqb_neq; congruence).
  rewrite Hf. cbn zeta. rewrite bind_ret. reflexivity.
Qed.

Lemma execute_unknown (w : World) :
  deploymentRevisionSource taskParameters ≠ revisionSourceFromWorkspace →
  deploymentRevisionSource taskParameters ≠ revisionSourceFromS3 →
  outcome (verifyResourcesExist w) = Returned tt →
  execute w
  = mkRun w (events (verifyResourcesExist w))
      (Thrown (mkError (Loc "UnknownRevisionSource"
                            [Str (deploymentRevisionSource taskParameters)]))).
Proof.
  intros Hw Hs Hv. rewrite (execute_verified w Hv).
  unfold resolveBundleKey.
  apply String.eqb_neq in Hw, Hs. rewrite Hw, Hs.
  cbn. now rewrite app_nil_r.
Qed.

(** C4.  Once the precondition check has passed, the revision source alone
    selects what [execute] does next: the workspace source runs
    [uploadBundle] and deploys the key it returns; the S3 source deploys the
    bucket and key of the task parameters as they are; any other value
    throws [UnknownRevisionSource] with that value, and nothing else is
    called.  A run with the S3 source, whatever the local filesystem holds
    and however the run ends, looks at no local path, writes no archive,
    uploads nothing, deletes nothing and leaves the filesystem as it was. *)
Theorem revision_source_selects_path :
  revisionSourceFromWorkspace ≠ revisionSourceFromS3 →
  (deploymentRevisionSource taskParameters = revisionSourceFromS3 →
     ∀ w, Forall notLocal (events (execute w))
          ∧ uploads (events (execute w)) = []
          ∧ unlinked (events (execute w)) = []
          ∧ fs (final (execute w)) = fs w)
  ∧ (∀ w, outcome (verifyResourcesExist w) = Returned tt →
      (deploymentRevisionSource taskParameters = revisionSourceFromWorkspace →
         execute w
         = let r := (uploadBundle ≫= afterResolution) w in
           mkRun (final r) (events (verifyResourcesExist w) ++ events r) (outcome r))
      ∧ (deploymentRevisionSource taskParameters = revisionSourceFromS3 →
           execute w
           = (let r := afterResolution (bundleKey taskParameters) w in
              mkRun (final r) (events (verifyResourcesExist w) ++ events r) (outcome r))
           ∧ map (fun r => CodeDeploy.s3Location (CodeDeploy.revision r))
                 (createDeployments (events (execute w)))
             = [CodeDeploy.mkS3Location (bucketName taskParameters)
                  (bundleKey taskParameters)
                  (archiveTypeOf (bundleKey taskParameters))])
      ∧ (deploymentRevisionSource taskParameters ≠ revisionSourceFromWorkspace →
         deploymentRevisionSource taskParameters ≠ revisionSourceFromS3 →
         execute w
         = mkRun w (events (verifyResourcesExist w))
             (Thrown (mkError (Loc "UnknownRevisionSource"
                                   [Str (deploymentRevisionSource taskParameters)]))))).
Proof.
  intros Hne. split.
  - intros Hs w.
    assert (Hk : keeps sameFs notLocal execute).
    { unfold execute. fold (afterSubmission).
      change (keeps sameFs notLocal
                (verifyResourcesExist ≫= fun _ => resolveBundleKey ≫= afterResolution)).
      frame.
      - apply (keeps_mono sameWorld _ probe);
          [apply sameWorld_sameFs | | apply verifyResourcesExist_keeps].
        intros e He. apply probe_remote in He. apply He.
      - unfold resolveBundleKey. rewrite Hs, String.eqb_refl.
        assert (Hf : String.eqb revisionSourceFromS3 revisionSourceFromWorkspace = false)
          by (apply String.eqb_neq; congruence).
        rewrite Hf. frame.
      - apply afterResolution_keeps. }
    destruct (Hk w) as [Hf Hl]. destruct (notLocal_silent _ Hl). auto.
  - intros w Hv. split; [| split].
    + intros Hs. now apply execute_workspace.
    + intros Hs. rewrite (execute_s3 w Hne Hs Hv). split; [reflexivity |].
      cbn [events]. unfold createDeployments.
      rewrite omap_app.
      fold (createDeployments (events (verifyResourcesExist w))).
      fold (createDeployments (events (afterResolution (bundleKey taskParameters) w))).
      rewrite (proj1 (proj2 (proj2 (verifyResourcesExist_silent w)))).
      rewrite afterResolution_requests. reflexivity.
    + intros Hw Hs. now apply execute_unknown.
Qed.

(** ** The archive after the upload *)

Lemma unlinked_app (l k : list Event) : unlinked (l ++ k) = unlinked l ++ unlinked k.
Proof. apply omap_app. Qed.

(** C2.  In a run from the workspace whose precondition check has passed:
    when the bundle is a folder and the zip library has left the archive, a
    file, at its path, the archive is unlinked after a successful upload, by
    the one [unlinkSync] of the run, which follows the upload, and is gone at
    the end of the run, the rest of the filesystem being as the write left
    it; when the upload fails, the run ends with the upload's own error,
    nothing is unlinked and the filesystem is as the write left it, so that
    the archive is still there.  When the bundle is a file, nothing is
    unlinked and the filesystem is left as it was, whether the upload
    succeeds or fails, and a failed upload ends the run with its error. *)
Theorem archive_cleanup_after_upload (w : World) :
  deploymentRevisionSource taskParameters = revisionSourceFromWorkspace →
  outcome (verifyResourcesExist w) = Returned tt →
  let archive := archivePath (applicationName taskParameters) in
  let written := zipWritten E (revisionBundle taskParameters) archive (fs w) in
  (fs w !! revisionBundle taskParameters = Some Directory →
   admZip E (revisionBundle taskParameters) archive = Returned tt →
   let request := putObjectRequest (bundleObjectKey archive) archive in
   (s3_upload E request = Returned tt →
    written !! archive = Some File →
      fs (final (execute w)) = delete archive written
      ∧ fs (final (execute w)) !! archive = None
      ∧ unlinked (events (execute w)) = [archive]
      ∧ ∃ pre post,
          events (execute w) = pre ++ Upload request :: post
          ∧ unlinked pre = [] ∧ unlinked post = [archive])
   ∧ (∀ err, s3_upload E request = Thrown err →
        outcome (execute w) = Thrown err
        ∧ fs (final (execute w)) = written
        ∧ (written !! archive = Some File →
           fs (final (execute w)) !! archive = Some File)
        ∧ unlinked (events (execute w)) = []))
  ∧ (fs w !! revisionBundle taskParameters = Some File →
     let request :=
       putObjectRequest (bundleObjectKey (revisionBundle taskParameters))
         (revisionBundle taskParameters) in
     fs (final (execute w)) = fs w
     ∧ unlinked (events (execute w)) = []
     ∧ ∀ err, s3_upload E request = Thrown err → outcome (execute w) = Thrown err).
Proof.
  intros Hs Hv archive written.
  rewrite (execute_workspace w Hs Hv). cbn zeta.
  destruct (verifyResourcesExist_silent w) as (_ & Hvd & _).
  split.
  - intros Hdir Hzip.
    set (request := putObjectRequest (bundleObjectKey archive) archive).
    pose proof (uploadBundle_directory w Hdir) as Hu. cbn zeta in Hu.
    fold archive in Hu. fold written in Hu. rewrite Hzip in Hu. fold request in Hu.
    split.
    + intros Hup Hfile. rewrite Hup, Hfile in Hu.
      assert (Ho : outcome (uploadBundle w) = Returned (bundleObjectKey archive))
        by now rewrite Hu.
      rewrite (bind_returned _ _ _ _ Ho), Hu. cbn [final events outcome].
      match goal with
      | |- context [afterResolution ?k ?w1] =>
          destruct (afterResolution_silent k w1) as (_ & Had & Haf);
          set (after := afterResolution k w1) in *
      end.
      cbn [fs] in Haf.
      split; [exact Haf |].
      split; [rewrite Haf; apply lookup_delete_eq |].
      split.
      * rewrite !unlinked_app, Hvd, Had. reflexivity.
      * exists (events (verifyResourcesExist w)
                  ++ archiving (revisionBundle taskParameters) archive).
        exists ([ConsoleLog (Loc "BundleUploadCompleted" []);
                 ConsoleLog (Loc "DeletingUploadedBundle" [Str archive]);
                 UnlinkSync archive] ++ events after).
        split; [| split].
        -- rewrite <- !app_assoc. reflexivity.
        -- rewrite unlinked_app, Hvd. reflexivity.
        -- rewrite unlinked_app, Had. reflexivity.
    + intros err Hup. rewrite Hup in Hu.
      assert (Ho : outcome (uploadBundle w) = Thrown err) by now rewrite Hu.
      rewrite (bind_thrown _ _ _ _ Ho), Hu. cbn [final events outcome fs].
      split; [reflexivity |]. split; [reflexivity |]. split; [exact (fun Hfile => Hfile) |].
      rewrite unlinked_app, Hvd. reflexivity.
  - intros Hfile.
    set (request := putObjectRequest
                      (bundleObjectKey (revisionBundle taskParameters))
                      (revisionBundle taskParameters)).
    pose proof (uploadBundle_file w Hfile) as Hu. cbn zeta in Hu. fold request in Hu.
    destruct (s3_upload E request) as [[]|err] eqn:Hup.
    + assert (Ho : outcome (uploadBundle w)
                   = Returned (bundleObjectKey (revisionBundle taskParameters)))
        by now rewrite Hu.
      rewrite (bind_returned _ _ _ _ Ho), Hu. cbn [final events outcome].
      match goal with
      | |- context [afterResolution ?k ?w1] =>
          destruct (afterResolution_silent k w1) as (_ & Had & Haf)
      end.
      split; [exact Haf |]. split; [| discriminate].
      rewrite !unlinked_app, Hvd, Had. reflexivity.
    + assert (Ho : outcome (uploadBundle w) = Thrown err) by now rewrite Hu.
      rewrite (bind_thrown _ _ _ _ Ho), Hu. cbn [final events outcome].
      split; [reflexivity |]. split; [| congruence].
      rewrite unlinked_app, Hvd. reflexivity.
Qed.

(** ** Further properties of the task *)

(** *** The three components of a sequence *)

Lemma bind_events {A B} (m : M A) (k : A → M B) (w : World) :
  events ((m ≫= k) w)
  = events (m w)
      ++ match outcome (m w) with
         | Returned a => events (k a (final (m w)))
         | Thrown _ => []
         end.
Proof.
  destruct (outcome (m w)) as [a|e] eqn:Ho.
  - now rewrite (bind_returned _ _ _ _ Ho).
  - rewrite (bind_thrown _ _ _ _ Ho). cbn. now rewrite app_nil_r.
Qed.

Lemma bind_final {A B} (m : M A) (k : A → M B) (w : World) :
  final ((m ≫= k) w)
  = match outcome (m w) with
    | Returned a => final (k a (final (m w)))
    | Thrown _ => final (m w)
    end.
Proof.
  destruct (outcome (m w)) as [a|e] eqn:Ho.
  - now rewrite (bind_returned _ _ _ _ Ho).
  - now rewrite (bind_thrown _ _ _ _ Ho).
Qed.

Lemma bind_outcome {A B} (m : M A) (k : A → M B) (w : World) :
  outcome ((m ≫= k) w)
  = match outcome (m w) with
    | Returned a => outcome (k a (final (m w)))
    | Thrown e => Thrown e
    end.
Proof.
  destruct (outcome (m w)) as [a|e] eqn:Ho.
  - now rewrite (bind_returned _ _ _ _ Ho).
  - now rewrite (bind_thrown _ _ _ _ Ho).
Qed.

#[local] Instance anyWorld_preorder : PreOrder anyWorld.
Proof. split; [intros w | intros a b c]; unfold anyWorld; auto. Qed.

Lemma keeps_any {A} (R : relation World) (P : Event → Prop) (m : M A) :
  keeps R P m → keeps anyWorld P m.
Proof. apply keeps_mono; [intros w w' _; exact I | auto]. Qed.

(** *** The precondition check *)

Lemma verifyResourcesExist_stage : keeps sameWorld (inStage 1) verifyResourcesExist.
Proof. unfold verifyResourcesExist. frame. Qed.

(** X1.  When the application exists and the probe of the deployment group
    fails, [execute] ends with [DeploymentGroupDoesNotExist], carrying the
    group and the application; the two probes are all the run has done. *)
Theorem deployment_group_missing_aborts (w : World) (err : Error) :
  cd_getApplication E (applicationName taskParameters) = Returned tt →
  cd_getDeploymentGroup E (applicationName taskParameters)
    (deploymentGroupName taskParameters) = Thrown err →
  execute w
  = mkRun w
      [GetApplication (applicationName taskParameters);
       GetDeploymentGroup (applicationName taskParameters)
         (deploymentGroupName taskParameters)]
      (Thrown (mkError (Loc "DeploymentGroupDoesNotExist"
                            [Str (deploymentGroupName taskParameters);
                             Str (applicationName taskParameters)]))).
Proof.
  intros Ha Hg. unfold execute, verifyResourcesExist. run.
  rewrite Ha. cbn. rewrite Hg. reflexivity.
Qed.

(** X2.  With the S3 source, when the application and the group exist and
    the probe of the object fails, [execute] ends with
    [RevisionBundleDoesNotExist], carrying the key and the bucket; the three
    probes are all the run has done, so nothing was submitted. *)
Theorem revision_object_missing_aborts (w : World) (err : Error) :
  deploymentRevisionSource taskParameters = revisionSourceFromS3 →
  cd_getApplication E (applicationName taskParameters) = Returned tt →
  cd_getDeploymentGroup E (applicationName taskParameters)
    (deploymentGroupName taskParameters) = Returned tt →
  s3_headObject E (bucketName taskParameters) (bundleKey taskParameters) = Thrown err →
  execute w
  = mkRun w
      [GetApplication (applicationName taskParameters);
       GetDeploymentGroup (applicationName taskParameters)
         (deploymentGroupName taskParameters);
       HeadObject (bucketName taskParameters) (bundleKey taskParameters)]
      (Thrown (mkError (Loc "RevisionBundleDoesNotExist"
                            [Str (bundleKey taskParameters);
                             Str (bucketName taskParameters)]))).
Proof.
  intros Hs Ha Hg Hh. unfold execute, verifyResourcesExist. run.
  rewrite Ha. cbn. rewrite Hg. cbn. rewrite Hs, String.eqb_refl, Hh. reflexivity.
Qed.

(** *** The stage of every event *)

(** What is read off the events of one stage finds nothing in a trace of
    another stage. *)
Lemma off_stage {B} (f : Event → option B) (k k' : nat) (evs : list Event) :
  (∀ e, is_Some (f e) → stage e = Some k') →
  k ≠ k' → Forall (inStage k) evs → omap f evs = [].
Proof.
  intros Hf Hk. induction 1 as [|e evs He _ IH]; [reflexivity |].
  cbn. rewrite IH. destruct (f e) as [b|] eqn:Hb; [| reflexivity].
  unfold inStage in He. rewrite (Hf e) in He by (rewrite Hb; eauto). congruence.
Qed.

Lemma uploads_stage (e : Event) :
  is_Some (match e with Upload r => Some r | _ => None end) → stage e = Some 2.
Proof. destruct e; intros [x Hx]; (discriminate || reflexivity). Qed.

Lemma unlinked_stage (e : Event) :
  is_Some (match e with UnlinkSync p => Some p | _ => None end) → stage e = Some 2.
Proof. destruct e; intros [x Hx]; (discriminate || reflexivity). Qed.

Lemma zipped_stage (e : Event) :
  is_Some (match e with WriteZip _ a => Some a | _ => None end) → stage e = Some 2.
Proof. destruct e; intros [x Hx]; (discriminate || reflexivity). Qed.

Lemma headObjects_stage (e : Event) :
  is_Some (match e with HeadObject b k => Some (b, k) | _ => None end) → stage e = Some 1.
Proof. destruct e; intros [x Hx]; (discriminate || reflexivity). Qed.

Lemma createDeployments_stage (e : Event) :
  is_Some (match e with CreateDeployment r => Some r | _ => None end) → stage e = Some 3.
Proof. destruct e; intros [x Hx]; (discriminate || reflexivity). Qed.

Lemma published_stage (e : Event) :
  is_Some (match e with SetVariable n v => Some (n, v) | _ => None end) → stage e = Some 4.
Proof. destruct e; intros [x Hx]; (discriminate || reflexivity). Qed.

Lemma waits_stage (e : Event) :
  is_Some (match e with WaitFor _ p => Some p | _ => None end) → stage e = Some 5.
Proof. destruct e; intros [x Hx]; (discriminate || reflexivity). Qed.

Lemma stages_constant (k : nat) (evs : list Event) :
  Forall (inStage k) evs → Forall (eq k) (stages evs).
Proof.
  induction 1 as [|e evs He _ IH]; [constructor |].
  unfold stages in *. cbn. unfold inStage in He.
  destruct (stage e); [constructor; auto | exact IH].
Qed.

Lemma not_completed (k : nat) (evs : list Event) :
  Forall (inStage k) evs → Forall (fun e => isTaskCompleted e = false) evs.
Proof.
  intros H. eapply Forall_impl; [exact H |].
  intros e He. unfold inStage in He. destruct e; try reflexivity; exact He.
Qed.

Lemma createDeploymentArchive_stage (folder name : string) :
  keeps sameVariables (inStage 2) (createDeploymentArchive folder name).
Proof.
  unfold createDeploymentArchive. frame.
  apply zip_write_keeps. reflexivity.
Qed.

Lemma uploadBundle_stage : keeps sameVariables (inStage 2) uploadBundle.
Proof.
  unfold uploadBundle, createReadStream. frame.
  - apply (keeps_mono sameWorld _ (inStage 2) (inStage 2));
      [apply sameWorld_sameVariables | auto | apply tl_stats_keeps; reflexivity].
  - apply createDeploymentArchive_stage.
  - apply unlinkSync_keeps. reflexivity.
Qed.

Lemma resolveBundleKey_stage : keeps sameVariables (inStage 2) resolveBundleKey.
Proof. unfold resolveBundleKey. frame. apply uploadBundle_stage. Qed.

Lemma deployRevision_stage (bundleKey : string) :
  keeps sameWorld (inStage 3) (deployRevision bundleKey).
Proof. unfold deployRevision, inferArchiveType. frame. Qed.

Lemma publishDeploymentId_stage (deploymentId : string) :
  keeps sameFs (inStage 4) (publishDeploymentId deploymentId).
Proof.
  unfold publishDeploymentId. frame.
  apply tl_setVariable_keeps. reflexivity.
Qed.

Lemma waitForDeploymentCompletion_stage (name deploymentId : string) (timeout : Q) :
  keeps sameWorld (inStage 5) (waitForDeploymentCompletion name deploymentId timeout).
Proof. unfold waitForDeploymentCompletion, setWaiterParams. frame. Qed.

Lemma submitDeployment_stages (w : World) :
  Forall (fun e => isTaskCompleted e = false) (events (submitDeployment w)).
Proof.
  unfold submitDeployment. rewrite bind_events.
  pose proof (not_completed 1 _ (proj2 (verifyResourcesExist_stage w))) as Hv.
  apply Forall_app. split; [exact Hv |].
  destruct (outcome (verifyResourcesExist w)) as [[]|e]; [| constructor].
  rewrite bind_events.
  pose proof (not_completed 2 _
                (proj2 (resolveBundleKey_stage (final (verifyResourcesExist w))))) as Hr.
  apply Forall_app. split; [exact Hr |].
  destruct (outcome (resolveBundleKey _)) as [key|e]; [| constructor].
  exact (not_completed 3 _ (proj2 (deployRevision_stage key _))).
Qed.

(** *** The trace of a run, stage by stage *)

Lemma afterSubmission_parts (deploymentId : string) (w : World) :
  ∃ p a c,
    events (afterSubmission deploymentId w) = p ++ a ++ c
    ∧ Forall (inStage 4) p ∧ Forall (inStage 5) a
    ∧ ((c = [] ∧ ∃ err, outcome (afterSubmission deploymentId w) = Thrown err)
       ∨ (c = [ConsoleLog (Loc "TaskCompleted" [Str (applicationName taskParameters)])]
          ∧ outcome (afterSubmission deploymentId w) = Returned tt)).
Proof.
  rewrite afterSubmission_run. cbn zeta.
  set (p := publishDeploymentId deploymentId w).
  set (r := waitForDeploymentCompletion _ _ _ (final p)).
  exists (events p), (events r).
  pose proof (proj2 (publishDeploymentId_stage deploymentId w)) as Hp.
  pose proof (proj2 (waitForDeploymentCompletion_stage
                       (applicationName taskParameters) deploymentId
                       (timeoutInMins taskParameters) (final p))) as Hr.
  destruct (outcome r) as [[]|err]; cbn [events outcome].
  - eexists. repeat split; eauto.
  - exists []. rewrite app_nil_r. repeat split; eauto.
Qed.

Lemma afterResolution_parts (bundleKey : string) (w : World) :
  ∃ d p a c,
    events (afterResolution bundleKey w) = d ++ p ++ a ++ c
    ∧ Forall (inStage 3) d ∧ Forall (inStage 4) p ∧ Forall (inStage 5) a
    ∧ ((c = [] ∧ ∃ err, outcome (afterResolution bundleKey w) = Thrown err)
       ∨ (c = [ConsoleLog (Loc "TaskCompleted" [Str (applicationName taskParameters)])]
          ∧ outcome (afterResolution bundleKey w) = Returned tt)).
Proof.
  unfold afterResolution. rewrite bind_events, bind_outcome.
  pose proof (proj2 (deployRevision_stage bundleKey w)) as Hd.
  exists (events (deployRevision bundleKey w)).
  destruct (outcome (deployRevision bundleKey w)) as [id|err].
  - destruct (afterSubmission_parts id (final (deployRevision bundleKey w)))
      as (p & a & c & -> & Hp & Ha & Hc).
    exists p, a, c. auto.
  - exists [], [], []. repeat split; eauto.
Qed.

Lemma execute_events (w : World) :
  events (execute w)
  = events (verifyResourcesExist w)
      ++ match outcome (verifyResourcesExist w) with
         | Returned _ =>
             events (resolveBundleKey w)
               ++ match outcome (resolveBundleKey w) with
                  | Returned key =>
                      events (afterResolution key (final (resolveBundleKey w)))
                  | Thrown _ => []
                  end
         | Thrown _ => []
         end.
Proof.
  change execute with
    (verifyResourcesExist ≫= fun _ => resolveBundleKey ≫= afterResolution).
  rewrite bind_events, verifyResourcesExist_final.
  destruct (outcome (verifyResourcesExist w)); [| reflexivity].
  now rewrite bind_events.
Qed.

Lemma execute_outcome (w : World) :
  outcome (execute w)
  = match outcome (verifyResourcesExist w) with
    | Returned _ =>
        match outcome (resolveBundleKey w) with
        | Returned key => outcome (afterResolution key (final (resolveBundleKey w)))
        | Thrown e => Thrown e
        end
    | Thrown e => Thrown e
    end.
Proof.
  change execute with
    (verifyResourcesExist ≫= fun _ => resolveBundleKey ≫= afterResolution).
  rewrite bind_outcome, verifyResourcesExist_final.
  destruct (outcome (verifyResourcesExist w)); [| reflexivity].
  now rewrite bind_outcome.
Qed.

Lemma execute_parts (w : World) :
  ∃ v r d p a c,
    events (execute w) = v ++ r ++ d ++ p ++ a ++ c
    ∧ Forall (inStage 1) v ∧ Forall (inStage 2) r ∧ Forall (inStage 3) d
    ∧ Forall (inStage 4) p ∧ Forall (inStage 5) a
    ∧ ((c = [] ∧ ∃ err, outcome (execute w) = Thrown err)
       ∨ (c = [ConsoleLog (Loc "TaskCompleted" [Str (applicationName taskParameters)])]
          ∧ outcome (execute w) = Returned tt)).
Proof.
  rewrite execute_events, execute_outcome.
  pose proof (proj2 (verifyResourcesExist_stage w)) as Hv.
  exists (events (verifyResourcesExist w)).
  destruct (outcome (verifyResourcesExist w)) as [[]|err].
  - pose proof (proj2 (resolveBundleKey_stage w)) as Hr.
    exists (events (resolveBundleKey w)).
    destruct (outcome (resolveBundleKey w)) as [key|err].
    + destruct (afterResolution_parts key (final (resolveBundleKey w)))
        as (d & p & a & c & -> & Hd & Hp & Ha & Hc).
      exists d, p, a, c. auto 10.
    + exists [], [], [], []. repeat split; eauto.
  - exists [], [], [], [], []. repeat split; eauto.
Qed.

Lemma block_sorted (k : nat) (evs rest : list Event) :
  Forall (inStage k) evs →
  StronglySorted le (stages rest) → Forall (le k) (stages rest) →
  StronglySorted le (stages (evs ++ rest)) ∧ Forall (le k) (stages (evs ++ rest)).
Proof.
  intros He Hs Hb. apply stages_constant in He.
  unfold stages in *. rewrite omap_app. split.
  - apply StronglySorted_app_2; [| | exact Hs].
    + intros x y Hx Hy. rewrite Forall_forall in He, Hb.
      rewrite <- (He x Hx). auto.
    + clear Hs Hb. induction He as [|x l Hx Hl IH]; constructor; [exact IH |].
      eapply Forall_impl; [exact Hl |]. intros y <-. subst. reflexivity.
  - apply Forall_app. split; [| exact Hb].
    eapply Forall_impl; [exact He |]. intros y <-. reflexivity.
Qed.

Lemma le_weaken (k k' : nat) (l : list nat) :
  (k <= k')%nat → Forall (le k') l → Forall (le k) l.
Proof. intros Hk H. eapply Forall_impl; [exact H |]. intros n Hn. cbn in *. lia. Qed.

(** X8.  In every run the calls come stage by stage: the existence probes,
    then whatever touches the local bundle (stat, zip, read, upload,
    unlink), then the submission, then the publication, then the wait; no
    call of an earlier stage follows a call of a later one. *)
Theorem calls_follow_the_stages (w : World) :
  StronglySorted le (stages (events (execute w))).
Proof.
  destruct (execute_parts w) as (v & r & d & p & a & c & -> & Hv & Hr & Hd & Hp & Ha & Hc).
  assert (Hcs : stages c = []) by (destruct Hc as [[-> _] | [-> _]]; reflexivity).
  assert (H5 : StronglySorted le (stages (a ++ c)) ∧ Forall (le 5) (stages (a ++ c))).
  { apply block_sorted; [exact Ha | rewrite Hcs; constructor | rewrite Hcs; constructor]. }
  assert (H4 : StronglySorted le (stages (p ++ a ++ c))
               ∧ Forall (le 4) (stages (p ++ a ++ c))).
  { apply block_sorted; [exact Hp | apply H5 | apply (le_weaken 4 5); [lia | apply H5]]. }
  assert (H3 : StronglySorted le (stages (d ++ p ++ a ++ c))
               ∧ Forall (le 3) (stages (d ++ p ++ a ++ c))).
  { apply block_sorted; [exact Hd | apply H4 | apply (le_weaken 3 4); [lia | apply H4]]. }
  assert (H2 : StronglySorted le (stages (r ++ d ++ p ++ a ++ c))
               ∧ Forall (le 2) (stages (r ++ d ++ p ++ a ++ c))).
  { apply block_sorted; [exact Hr | apply H3 | apply (le_weaken 2 3); [lia | apply H3]]. }
  apply (block_sorted 1); [exact Hv | apply H2 | apply (le_weaken 1 2); [lia | apply H2]].
Qed.

(** X12.  The line [TaskCompleted] is on the console of a run exactly when
    the run returns, and it is then the last thing the run does. *)
Theorem task_completed_iff_returned (w : World) :
  ((∃ e, e ∈ events (execute w) ∧ isTaskCompleted e = true)
   ↔ outcome (execute w) = Returned tt)
  ∧ (outcome (execute w) = Returned tt →
     ∃ before,
       events (execute w)
       = before ++ [ConsoleLog (Loc "TaskCompleted" [Str (applicationName taskParameters)])]
       ∧ Forall (fun e => isTaskCompleted e = false) before).
Proof.
  destruct (execute_parts w) as (v & r & d & p & a & c & He & Hv & Hr & Hd & Hp & Ha & Hc).
  assert (Hb : Forall (fun e => isTaskCompleted e = false) (v ++ r ++ d ++ p ++ a)).
  { repeat (apply Forall_app; split); eapply not_completed; eassumption. }
  rewrite He.
  replace (v ++ r ++ d ++ p ++ a ++ c) with ((v ++ r ++ d ++ p ++ a) ++ c)
    by (now rewrite <- !app_assoc).
  destruct Hc as [[-> [err Ho]] | [-> Ho]]; rewrite Ho.
  - rewrite app_nil_r. split; [split |]; try discriminate.
    intros (e & Hin & Hc). rewrite Forall_forall in Hb.
    rewrite (Hb e Hin) in Hc. discriminate.
  - split.
    + split; [intros _; reflexivity |].
      intros _.
      exists (ConsoleLog (Loc "TaskCompleted" [Str (applicationName taskParameters)])).
      split; [| reflexivity].
      rewrite elem_of_app. right. apply list_elem_of_here.
    + intros _. eexists. split; [reflexivity | exact Hb].
Qed.

(** *** What is read off a run *)

Lemma execute_extract {B} (f : Event → option B) (w : World) :
  omap f (events (execute w))
  = omap f (events (verifyResourcesExist w))
      ++ match outcome (verifyResourcesExist w) with
         | Returned _ =>
             omap f (events (resolveBundleKey w))
               ++ match outcome (resolveBundleKey w) with
                  | Returned key =>
                      omap f (events (afterResolution key (final (resolveBundleKey w))))
                  | Thrown _ => []
                  end
         | Thrown _ => []
         end.
Proof.
  rewrite execute_events, omap_app.
  destruct (outcome (verifyResourcesExist w)); [| reflexivity].
  rewrite omap_app. now destruct (outcome (resolveBundleKey w)).
Qed.

Lemma afterResolution_off {B} (f : Event → option B) (k : nat) (bundleKey : string)
    (w : World) :
  (∀ e, is_Some (f e) → stage e = Some k) → (k < 3)%nat →
  omap f (events (afterResolution bundleKey w)) = [].
Proof.
  intros Hf Hk.
  destruct (afterResolution_parts bundleKey w)
    as (d & p & a & c & -> & Hd & Hp & Ha & Hc).
  rewrite !omap_app.
  rewrite (off_stage f 3 k d Hf), (off_stage f 4 k p Hf), (off_stage f 5 k a Hf)
    by (assumption || lia).
  destruct Hc as [[-> _] | [-> _]]; [reflexivity |]. cbn.
  destruct (f _) eqn:Hb; [| reflexivity].
  specialize (Hf _ ltac:(rewrite Hb; eauto)). discriminate Hf.
Qed.

Lemma afterSubmission_published (deploymentId : string) (w : World) :
  published (events (afterSubmission deploymentId w))
  = if JS.truthy (outputVariable taskParameters)
    then [(JS.str (outputVariable taskParameters), deploymentId)]
    else [].
Proof.
  destruct (afterSubmission_shape deploymentId w) as (pre & post & -> & Hpre & Hpost & _).
  apply console_early, early_silent in Hpre, Hpost.
  unfold published in *. rewrite !omap_app, (proj1 Hpre). cbn. rewrite (proj1 Hpost).
  rewrite publishDeploymentId_run. destruct (JS.truthy _); reflexivity.
Qed.

Lemma afterResolution_waits (bundleKey : string) (w : World) :
  waits (events (afterResolution bundleKey w))
  = match outcome (deployRevision bundleKey w) with
    | Returned id => [waiterParams id]
    | Thrown _ => []
    end.
Proof.
  unfold afterResolution, waits. rewrite bind_events, omap_app.
  rewrite (off_stage _ 3 5 _ waits_stage) by (lia || apply deployRevision_stage).
  destruct (outcome (deployRevision bundleKey w)); [| reflexivity].
  apply afterSubmission_waits.
Qed.

Lemma afterResolution_published (bundleKey : string) (w : World) :
  published (events (afterResolution bundleKey w))
  = match outcome (deployRevision bundleKey w) with
    | Returned id =>
        if JS.truthy (outputVariable taskParameters)
        then [(JS.str (outputVariable taskParameters), id)]
        else []
    | Thrown _ => []
    end.
Proof.
  unfold afterResolution, published. rewrite bind_events, omap_app.
  rewrite (off_stage _ 3 4 _ published_stage) by (lia || apply deployRevision_stage).
  destruct (outcome (deployRevision bundleKey w)); [| reflexivity].
  apply afterSubmission_published.
Qed.

(** X3.  The precondition check passes exactly when the application and
    the deployment group are found and, for the S3 source, the object is
    found too; with any other source the bucket is never probed, in the whole
    run. *)
Theorem precondition_passes_iff (w : World) :
  (outcome (verifyResourcesExist w) = Returned tt
   ↔ cd_getApplication E (applicationName taskParameters) = Returned tt
     ∧ cd_getDeploymentGroup E (applicationName taskParameters)
         (deploymentGroupName taskParameters) = Returned tt
     ∧ (deploymentRevisionSource taskParameters = revisionSourceFromS3 →
        s3_headObject E (bucketName taskParameters) (bundleKey taskParameters)
        = Returned tt))
  ∧ (deploymentRevisionSource taskParameters ≠ revisionSourceFromS3 →
     headObjects (events (execute w)) = []).
Proof.
  split.
  - unfold verifyResourcesExist. run.
    destruct (cd_getApplication E _) as [[]|e1]; cbn;
      [| split; [discriminate | intros (H & _); discriminate]].
    destruct (cd_getDeploymentGroup E _ _) as [[]|e2]; cbn;
      [| split; [discriminate | intros (_ & H & _); discriminate]].
    destruct (String.eqb_spec (deploymentRevisionSource taskParameters)
                revisionSourceFromS3) as [Hs|Hs]; cbn.
    + destruct (s3_headObject E _ _) as [[]|e3]; cbn.
      * split; auto.
      * split; [discriminate | intros (_ & _ & H); specialize (H Hs); discriminate].
    + split; [intros _ | reflexivity]. repeat split. intros; contradiction.
  - intros Hs. unfold headObjects. rewrite execute_extract.
    assert (Hv : omap (fun e => match e with HeadObject b k => Some (b, k) | _ => None end)
                   (events (verifyResourcesExist w)) = []).
    { apply String.eqb_neq in Hs. unfold verifyResourcesExist. run.
      destruct (cd_getApplication E _) as [[]|e1]; cbn; [| reflexivity].
      destruct (cd_getDeploymentGroup E _ _) as [[]|e2]; cbn; [| reflexivity].
      rewrite Hs. reflexivity. }
    rewrite Hv.
    destruct (outcome (verifyResourcesExist w)); [| reflexivity].
    rewrite (off_stage _ 2 1 _ headObjects_stage) by (lia || apply resolveBundleKey_stage).
    destruct (outcome (resolveBundleKey w)); [| reflexivity].
    now rewrite (afterResolution_off _ 1 _ _ headObjects_stage) by lia.
Qed.

(** X10.  A run returns exactly when the submission has returned an
    identifier and the waiter has then reported no error for it. *)
Theorem returns_iff_deployment_succeeded (w : World) :
  outcome (execute w) = Returned tt
  ↔ ∃ deploymentId,
      outcome (submitDeployment w) = Returned deploymentId
      ∧ cd_waitFor E "deploymentSuccessful" (waiterParams deploymentId) = None.
Proof.
  rewrite execute_submitted, bind_outcome.
  destruct (outcome (submitDeployment w)) as [id|err].
  - destruct (afterSubmission_shape id (final (submitDeployment w)))
      as (pre & post & _ & _ & _ & _ & ->).
    destruct (cd_waitFor E _ (waiterParams id)) as [e|] eqn:Hw.
    + split; [discriminate |]. intros (id' & [= <-] & H). congruence.
    + split; eauto.
  - split; [discriminate | intros (id & H & _); discriminate].
Qed.

(** X11.  When [createDeployment] refuses the request, [deployRevision]
    writes the error to the console and throws it as it is; what follows the
    revision's resolution then ends with that error: nothing is published and
    the waiter is never asked. *)
Theorem submission_failure_aborts (bundleKey : string) (w : World) (err : Error) :
  cd_createDeployment E (createDeploymentInput bundleKey (archiveTypeOf bundleKey))
  = Thrown err →
  events (afterResolution bundleKey w) = events (deployRevision bundleKey w)
  ∧ outcome (afterResolution bundleKey w) = Thrown err
  ∧ final (afterResolution bundleKey w) = w
  ∧ ConsoleError (Loc "DeploymentError" [message err]) err
    ∈ events (afterResolution bundleKey w)
  ∧ published (events (afterResolution bundleKey w)) = []
  ∧ waits (events (afterResolution bundleKey w)) = [].
Proof.
  intros H.
  destruct (deployRevision_run bundleKey w) as [line Hd]. cbn zeta in Hd.
  rewrite H in Hd.
  assert (Ho : outcome (deployRevision bundleKey w) = Thrown err) by now rewrite Hd.
  rewrite afterResolution_published, afterResolution_waits, Ho.
  unfold afterResolution. rewrite (bind_thrown _ _ _ _ Ho), Hd. cbn [final events outcome].
  repeat split. do 3 apply list_elem_of_further. apply list_elem_of_here.
Qed.

(** X19.  The identifier that [createDeployment] answers with is the one
    handed to the waiter and, when an output variable is named, the one
    published. *)
Theorem returned_id_is_waited_for (bundleKey deploymentId : string) (w : World) :
  cd_createDeployment E (createDeploymentInput bundleKey (archiveTypeOf bundleKey))
  = Returned (CodeDeploy.mkCreateDeploymentOutput (Some deploymentId)) →
  deploymentId ≠ "" →
  outcome (deployRevision bundleKey w) = Returned deploymentId
  ∧ waits (events (afterResolution bundleKey w)) = [waiterParams deploymentId]
  ∧ published (events (afterResolution bundleKey w))
    = if JS.truthy (outputVariable taskParameters)
      then [(JS.str (outputVariable taskParameters), deploymentId)]
      else [].
Proof.
  intros H Hne.
  destruct (deployRevision_run bundleKey w) as [line Hd]. cbn zeta in Hd.
  rewrite H in Hd. cbn in Hd. apply String.eqb_neq in Hne. rewrite Hne in Hd. cbn in Hd.
  assert (Ho : outcome (deployRevision bundleKey w) = Returned deploymentId)
    by now rewrite Hd.
  rewrite afterResolution_published, afterResolution_waits, Ho. auto.
Qed.

(** *** The requests of a run *)

Lemma uploadBundle_requests (w : World) :
  uploads (events (uploadBundle w)) = []
  ∨ ∃ key body, uploads (events (uploadBundle w)) = [putObjectRequest key body]
                ∧ ∀ k, outcome (uploadBundle w) = Returned k → k = key.
Proof.
  destruct (fs w !! revisionBundle taskParameters) as [[|]|] eqn:H.
  - right. rewrite (uploadBundle_file w H). cbn zeta.
    do 2 eexists. destruct (s3_upload E _); cbn; split; eauto; congruence.
  - rewrite (uploadBundle_directory w H). cbn zeta.
    destruct (admZip E _ _); [right | left; reflexivity].
    do 2 eexists.
    destruct (s3_upload E _); [destruct (zipWritten E _ _ _ !! _) as [[|]|] |];
      cbn; split; eauto; congruence.
  - left. apply (uploadBundle_missing w H).
Qed.

Lemma uploadBundle_returned (w : World) (key : string) :
  outcome (uploadBundle w) = Returned key →
  ∃ body, uploads (events (uploadBundle w)) = [putObjectRequest key body].
Proof.
  intros Ho. destruct (fs w !! revisionBundle taskParameters) as [[|]|] eqn:H.
  - rewrite (uploadBundle_file w H) in *. cbn zeta in *.
    destruct (s3_upload E _); cbn in *; [| discriminate].
    injection Ho as <-. eauto.
  - rewrite (uploadBundle_directory w H) in *. cbn zeta in *.
    destruct (admZip E _ _); [| discriminate].
    destruct (s3_upload E _); [| discriminate].
    destruct (zipWritten E _ _ _ !! _) as [[|]|]; cbn in *; [| discriminate..].
    injection Ho as <-. eauto.
  - destruct (uploadBundle_missing w H) as (_ & _ & _ & err & He). congruence.
Qed.

(** X4.  Every upload of [uploadBundle] goes to the bucket of the task, and
    carries an ACL only when one is set and is neither empty nor [none]: the
    ACL is then passed as it is. *)
Theorem upload_acl_rule (w : World) :
  Forall (fun r =>
            S3.Bucket r = bucketName taskParameters
            ∧ S3.ACL r
              = match filesAcl taskParameters with
                | Some acl =>
                    if String.eqb acl "" || String.eqb acl "none" then None else Some acl
                | None => None
                end)
         (uploads (events (uploadBundle w))).
Proof.
  destruct (uploadBundle_requests w) as [-> | (key & body & -> & _)]; [constructor |].
  repeat constructor. unfold putObjectRequest. cbn.
  destruct (filesAcl taskParameters) as [acl|]; [| reflexivity]. cbn.
  destruct (String.eqb acl ""); [reflexivity |]. cbn.
  now destruct (String.eqb acl "none").
Qed.

(** X5.  Every submission of a run names the application and the group of
    the task, passes its three behaviour settings, points at the bucket of
    the task as an S3 revision, and carries a description only when the
    task has a non-empty one. *)
Theorem submission_request_fields (w : World) :
  Forall (fun r =>
            CodeDeploy.applicationName r = applicationName taskParameters
            ∧ CodeDeploy.deploymentGroupName r = deploymentGroupName taskParameters
            ∧ CodeDeploy.fileExistsBehavior r = fileExistsBehavior taskParameters
            ∧ CodeDeploy.ignoreApplicationStopFailures r
              = ignoreApplicationStopFailures taskParameters
            ∧ CodeDeploy.updateOutdatedInstancesOnly r
              = updateOutdatedInstancesOnly taskParameters
            ∧ CodeDeploy.revisionType (CodeDeploy.revision r) = "S3"
            ∧ CodeDeploy.bucket (CodeDeploy.s3Location (CodeDeploy.revision r))
              = bucketName taskParameters
            ∧ CodeDeploy.description r
              = match description taskParameters with
                | Some d => if String.eqb d "" then None else Some d
                | None => None
                end)
         (createDeployments (events (execute w))).
Proof.
  unfold createDeployments. rewrite execute_extract.
  rewrite (off_stage _ 1 3 _ createDeployments_stage)
    by (lia || apply verifyResourcesExist_stage).
  destruct (outcome (verifyResourcesExist w)); [| constructor].
  rewrite (off_stage _ 2 3 _ createDeployments_stage)
    by (lia || apply resolveBundleKey_stage).
  destruct (outcome (resolveBundleKey w)) as [key|]; [| constructor].
  cbn [app].
  pose proof (afterResolution_requests key (final (resolveBundleKey w))) as Hr.
  unfold createDeployments in Hr. rewrite Hr.
  repeat constructor. cbn.
  destruct (description taskParameters) as [d|]; [| reflexivity]. cbn.
  now destruct (String.eqb d "").
Qed.

(** X13.  In a run from the workspace, a submission refers to the object
    that the run has uploaded: the same bucket and the same key. *)
Theorem submission_refers_to_upload (w : World) :
  deploymentRevisionSource taskParameters = revisionSourceFromWorkspace →
  Forall (fun d =>
            ∃ u, u ∈ uploads (events (execute w))
                 ∧ S3.Bucket u
                   = CodeDeploy.bucket (CodeDeploy.s3Location (CodeDeploy.revision d))
                 ∧ S3.Key u
                   = CodeDeploy.key (CodeDeploy.s3Location (CodeDeploy.revision d)))
         (createDeployments (events (execute w))).
Proof.
  intros Hs.
  assert (Hres : resolveBundleKey = uploadBundle).
  { unfold resolveBundleKey. now rewrite Hs, String.eqb_refl. }
  unfold createDeployments, uploads. rewrite !execute_extract.
  rewrite (off_stage _ 1 3 _ createDeployments_stage)
    by (lia || apply verifyResourcesExist_stage).
  destruct (outcome (verifyResourcesExist w)); [| constructor].
  rewrite (off_stage _ 2 3 _ createDeployments_stage)
    by (lia || apply resolveBundleKey_stage).
  destruct (outcome (resolveBundleKey w)) as [key|] eqn:Ho; [| constructor].
  cbn [app].
  pose proof (afterResolution_requests key (final (resolveBundleKey w))) as Hr.
  unfold createDeployments in Hr. rewrite Hr.
  rewrite Hres in Ho. destruct (uploadBundle_returned w key Ho) as [body Hu].
  repeat constructor.
  exists (putObjectRequest key body). split; [| split; reflexivity].
  rewrite elem_of_app. right. rewrite elem_of_app. left.
  rewrite Hres. unfold uploads in Hu. rewrite Hu. apply list_elem_of_here.
Qed.

(** *** Failures while packaging *)

Lemma uploadBundle_nothing (w : World) :
  fs w !! revisionBundle taskParameters = None →
  ∃ err, uploadBundle w = mkRun w [Stats (revisionBundle taskParameters)] (Thrown err).
Proof.
  intros H. unfold uploadBundle, tl_stats. run. rewrite H. run. eauto.
Qed.


(** X7.  In a run from the workspace, when nothing is at the path of the
    bundle the run ends with the error of the stat, right after the
    precondition check: no archive is written, nothing is uploaded or
    submitted, and the world is left as it was. *)
Theorem missing_bundle_aborts (w : World) :
  deploymentRevisionSource taskParameters = revisionSourceFromWorkspace →
  outcome (verifyResourcesExist w) = Returned tt →
  fs w !! revisionBundle taskParameters = None →
  (∃ err, outcome (execute w) = Thrown err)
  ∧ events (execute w)
    = events (verifyResourcesExist w) ++ [Stats (revisionBundle taskParameters)]
  ∧ final (execute w) = w.
Proof.
  intros Hs Hv Hnone.
  destruct (uploadBundle_nothing w Hnone) as [err Hu].
  assert (Ho : outcome (uploadBundle w) = Thrown err) by now rewrite Hu.
  rewrite (execute_workspace w Hs Hv). cbn zeta.
  rewrite (bind_thrown _ _ _ _ Ho), Hu. cbn [final events outcome]. eauto.
Qed.

(** *** One call of each kind *)

Lemma uploadBundle_once (w : World) :
  (length (zipped (events (uploadBundle w))) <= 1)%nat
  ∧ (length (uploads (events (uploadBundle w))) <= 1)%nat
  ∧ (length (unlinked (events (uploadBundle w))) <= 1)%nat.
Proof.
  destruct (fs w !! revisionBundle taskParameters) as [[|]|] eqn:H.
  - rewrite (uploadBundle_file w H). cbn zeta.
    destruct (s3_upload E _); cbn; lia.
  - rewrite (uploadBundle_directory w H). cbn zeta.
    destruct (admZip E _ _); [| cbn; lia].
    destruct (s3_upload E _); [destruct (zipWritten E _ _ _ !! _) as [[|]|] |];
      cbn; lia.
  - destruct (uploadBundle_nothing w H) as [err ->]. cbn. lia.
Qed.

Lemma resolveBundleKey_once (w : World) :
  (length (zipped (events (resolveBundleKey w))) <= 1)%nat
  ∧ (length (uploads (events (resolveBundleKey w))) <= 1)%nat
  ∧ (length (unlinked (events (resolveBundleKey w))) <= 1)%nat.
Proof.
  unfold resolveBundleKey.
  destruct (String.eqb _ _); [apply uploadBundle_once |].
  destruct (String.eqb _ _); cbn; lia.
Qed.

Lemma execute_local {B} (f : Event → option B) (w : World) :
  (∀ e, is_Some (f e) → stage e = Some 2) →
  omap f (events (execute w)) = []
  ∨ omap f (events (execute w)) = omap f (events (resolveBundleKey w)).
Proof.
  intros Hf. rewrite execute_extract.
  rewrite (off_stage f 1 2 _ Hf) by (lia || apply verifyResourcesExist_stage).
  destruct (outcome (verifyResourcesExist w)); [right | left; reflexivity].
  destruct (outcome (resolveBundleKey w)); [| now rewrite app_nil_r].
  rewrite (afterResolution_off f 2 _ _ Hf) by lia. cbn. now rewrite app_nil_r.
Qed.

Lemma execute_late {B} (f : Event → option B) (k : nat) (w : World) :
  (∀ e, is_Some (f e) → stage e = Some k) → (3 <= k)%nat →
  omap f (events (execute w)) = []
  ∨ ∃ key, outcome (resolveBundleKey w) = Returned key
           ∧ omap f (events (execute w))
             = omap f (events (afterResolution key (final (resolveBundleKey w)))).
Proof.
  intros Hf Hk. rewrite execute_extract.
  rewrite (off_stage f 1 k _ Hf) by (lia || apply verifyResourcesExist_stage).
  destruct (outcome (verifyResourcesExist w)); [| left; reflexivity].
  rewrite (off_stage f 2 k _ Hf) by (lia || apply resolveBundleKey_stage).
  destruct (outcome (resolveBundleKey w)) as [key|]; [right; eauto | left; reflexivity].
Qed.

(** X9.  A run writes at most one archive, uploads at most one object,
    unlinks at most one file, submits at most one deployment, publishes at
    most one value and asks the waiter at most once. *)
Theorem each_call_at_most_once (w : World) :
  (length (zipped (events (execute w))) <= 1)%nat
  ∧ (length (uploads (events (execute w))) <= 1)%nat
  ∧ (length (unlinked (events (execute w))) <= 1)%nat
  ∧ (length (createDeployments (events (execute w))) <= 1)%nat
  ∧ (length (published (events (execute w))) <= 1)%nat
  ∧ (length (waits (events (execute w))) <= 1)%nat.
Proof.
  destruct (resolveBundleKey_once w) as (Hz & Hu & Hd).
  repeat split.
  - unfold zipped in *. destruct (execute_local _ w zipped_stage) as [-> | ->]; cbn; lia.
  - unfold uploads in *. destruct (execute_local _ w uploads_stage) as [-> | ->]; cbn; lia.
  - unfold unlinked in *. destruct (execute_local _ w unlinked_stage) as [-> | ->]; cbn; lia.
  - unfold createDeployments.
    destruct (execute_late _ 3 w createDeployments_stage) as [-> | (key & _ & ->)];
      [lia | cbn; lia |].
    pose proof (afterResolution_requests key (final (resolveBundleKey w))) as Hr.
    unfold createDeployments in Hr. rewrite Hr. cbn. lia.
  - unfold published.
    destruct (execute_late _ 4 w published_stage) as [-> | (key & _ & ->)];
      [lia | cbn; lia |].
    pose proof (afterResolution_published key (final (resolveBundleKey w))) as Hr.
    unfold published in Hr. rewrite Hr.
    destruct (outcome (deployRevision _ _)); [destruct (JS.truthy _) |]; cbn; lia.
  - unfold waits.
    destruct (execute_late _ 5 w waits_stage) as [-> | (key & _ & ->)];
      [lia | cbn; lia |].
    pose proof (afterResolution_waits key (final (resolveBundleKey w))) as Hr.
    unfold waits in Hr. rewrite Hr.
    destruct (outcome (deployRevision _ _)); cbn; lia.
Qed.

(** *** The footprint of a run *)


Lemma execute_final (w : World) :
  final (execute w)
  = match outcome (verifyResourcesExist w) with
    | Returned _ =>
        match outcome (resolveBundleKey w) with
        | Returned key => final (afterResolution key (final (resolveBundleKey w)))
        | Thrown _ => final (resolveBundleKey w)
        end
    | Thrown _ => w
    end.
Proof.
  change execute with
    (verifyResourcesExist ≫= fun _ => resolveBundleKey ≫= afterResolution).
  rewrite bind_final, verifyResourcesExist_final.
  destruct (outcome (verifyResourcesExist w)); [| reflexivity].
  now rewrite bind_final.
Qed.



(** X16.  The only pipeline variable a run can have set is the output
    variable of the task, a variable being what the task library keeps under
    one key: a name whose key is not the key of the output variable reads at
    the end what it read at the start, and with no output variable named no
    variable is changed. *)
Theorem variables_footprint (w : World) :
  (∀ name,
      TaskLib.getVariableKey name
      ≠ TaskLib.getVariableKey (JS.str (outputVariable taskParameters)) →
      variables (final (execute w)) !! name = variables w !! name)
  ∧ (JS.truthy (outputVariable taskParameters) = false →
     variables (final (execute w)) = variables w).
Proof.
  rewrite execute_submitted, bind_final.
  destruct (submitDeployment_keeps w) as [Hv _]. unfold sameVariables in Hv.
  destruct (outcome (submitDeployment w)) as [id|err].
  - destruct (afterSubmission_shape id (final (submitDeployment w)))
      as (pre & post & _ & _ & _ & -> & _).
    rewrite publishDeploymentId_run.
    destruct (JS.truthy _); cbn [final variables]; split.
    + intros name Hn. now rewrite lookup_setVariable_ne, Hv.
    + discriminate.
    + intros name _. now rewrite Hv.
    + intros _. exact Hv.
  - split; [intros name _; now rewrite Hv | intros _; exact Hv].
Qed.

(** X17.  A run from the workspace on a folder whose upload succeeds
    leaves the local filesystem exactly as it found it, provided nothing was
    at the path of the archive before the run and the write of the zip
    library has added the archive and nothing else (no directory on the way
    to it had to be made): the archive is written once and removed again. *)
Theorem filesystem_restored (w : World) :
  deploymentRevisionSource taskParameters = revisionSourceFromWorkspace →
  outcome (verifyResourcesExist w) = Returned tt →
  fs w !! revisionBundle taskParameters = Some Directory →
  fs w !! archivePath (applicationName taskParameters) = None →
  admZip E (revisionBundle taskParameters) (archivePath (applicationName taskParameters))
  = Returned tt →
  zipWritten E (revisionBundle taskParameters)
    (archivePath (applicationName taskParameters)) (fs w)
  = <[archivePath (applicationName taskParameters) := File]> (fs w) →
  s3_upload E
    (putObjectRequest (bundleObjectKey (archivePath (applicationName taskParameters)))
       (archivePath (applicationName taskParameters)))
  = Returned tt →
  fs (final (execute w)) = fs w
  ∧ zipped (events (execute w)) = [archivePath (applicationName taskParameters)]
  ∧ unlinked (events (execute w)) = [archivePath (applicationName taskParameters)].
Proof.
  intros Hs Hv Hdir Hfree Hzip Hwritten Hup.
  pose proof (uploadBundle_directory w Hdir) as Hu. cbn zeta in Hu.
  rewrite Hzip, Hup, Hwritten, lookup_insert_eq in Hu.
  assert (Hres : resolveBundleKey = uploadBundle).
  { unfold resolveBundleKey. now rewrite Hs, String.eqb_refl. }
  split; [| split].
  - rewrite execute_final, Hv, Hres.
    replace (outcome (uploadBundle w))
      with (Returned (A := string)
              (bundleObjectKey (archivePath (applicationName taskParameters))))
      by now rewrite Hu.
    match goal with
    | |- context [afterResolution ?k ?w1] =>
        destruct (afterResolution_silent k w1) as (_ & _ & ->)
    end.
    rewrite Hu. cbn [final fs]. now apply delete_insert_id.
  - unfold zipped. destruct (execute_local _ w zipped_stage) as [He | ->].
    + exfalso. rewrite execute_extract, Hv, Hres, Hu in He. cbn in He.
      apply app_eq_nil in He. destruct He as [_ He]. discriminate He.
    + rewrite Hres, Hu. reflexivity.
  - unfold unlinked. destruct (execute_local _ w unlinked_stage) as [He | ->].
    + exfalso. rewrite execute_extract, Hv, Hres, Hu in He. cbn in He.
      apply app_eq_nil in He. destruct He as [_ He]. discriminate He.
    + rewrite Hres, Hu. reflexivity.
Qed.

(** X20.  In a run from the workspace on a folder, when the zip library has
    returned without leaving a file at the path of the archive (a directory
    was there, or nothing is there), the [unlinkSync] that follows the
    successful upload throws, inside the [try] of the upload: its error is
    written to the console as [BundleUploadFailed] and ends the run, the
    object stays uploaded, nothing is removed from the filesystem and no
    deployment is submitted. *)
Theorem failed_unlink_aborts (w : World) :
  deploymentRevisionSource taskParameters = revisionSourceFromWorkspace →
  outcome (verifyResourcesExist w) = Returned tt →
  let archive := archivePath (applicationName taskParameters) in
  let written := zipWritten E (revisionBundle taskParameters) archive (fs w) in
  let request := putObjectRequest (bundleObjectKey archive) archive in
  fs w !! revisionBundle taskParameters = Some Directory →
  admZip E (revisionBundle taskParameters) archive = Returned tt →
  s3_upload E request = Returned tt →
  written !! archive ≠ Some File →
  ∃ err,
    outcome (execute w) = Thrown err
    ∧ ConsoleError (Loc "BundleUploadFailed" [message err]) err ∈ events (execute w)
    ∧ fs (final (execute w)) = written
    ∧ uploads (events (execute w)) = [request]
    ∧ unlinked (events (execute w)) = [archive]
    ∧ createDeployments (events (execute w)) = [].
Proof.
  intros Hs Hv archive written request Hdir Hzip Hup Hnot.
  pose proof (uploadBundle_directory w Hdir) as Hu. cbn zeta in Hu.
  fold archive in Hu. fold written in Hu. fold request in Hu.
  rewrite Hzip, Hup in Hu.
  destruct (verifyResourcesExist_silent w) as (Hvu & Hvd & Hvc & _).
  rewrite (execute_workspace w Hs Hv). cbn zeta.
  destruct (written !! archive) as [[|]|]; [contradiction |
    exists (mkError (Str ("EISDIR: illegal operation on a directory, unlink '"
                          +:+ archive +:+ "'"))) |
    exists (mkError (Str ("ENOENT: no such file or directory, unlink '"
                          +:+ archive +:+ "'")))].
  all: rewrite (bind_thrown _ _ _ _ (f_equal outcome Hu)), Hu.
  all: cbn [final events outcome fs].
  all: unfold uploads, unlinked, createDeployments in *.
  all: rewrite !omap_app, Hvu, Hvd, Hvc.
  all: repeat split.
  all: rewrite elem_of_app; right; rewrite elem_of_app; right; apply list_elem_of_here.
Qed.

(** *** The attempts of the waiter *)

Lemma setWaiterParams_returns (deploymentId : string) (timeout : Q) (w : World) :
  outcome (setWaiterParams deploymentId timeout w)
  = Returned (CodeDeploy.mkWaiterParams deploymentId
                (JS.Math_round ((timeout * 60) / 15)%Q)).
Proof. unfold setWaiterParams. run. destruct (negb _); reflexivity. Qed.

(** X14.  The attempts handed to the waiter grow with the timeout, and
    the waiter gets at least one attempt exactly when the timeout is at least
    an eighth of a minute: a timeout of zero, or a negative one, leaves it
    none. *)
Theorem max_attempts_bounds (deploymentId : string) (w : World) :
  (∀ (t1 t2 : Q) (p1 p2 : CodeDeploy.WaiterParams),
      outcome (setWaiterParams deploymentId t1 w) = Returned p1 →
      outcome (setWaiterParams deploymentId t2 w) = Returned p2 →
      (t1 <= t2)%Q →
      (CodeDeploy.maxAttempts p1 <= CodeDeploy.maxAttempts p2)%Z)
  ∧ (∀ (t : Q) (p : CodeDeploy.WaiterParams),
        outcome (setWaiterParams deploymentId t w) = Returned p →
        ((1 <= CodeDeploy.maxAttempts p)%Z ↔ (1 # 8 <= t)%Q)).
Proof.
  split.
  - intros t1 t2 p1 p2. rewrite !setWaiterParams_returns.
    intros [= <-] [= <-] Ht. cbn [CodeDeploy.maxAttempts]. unfold JS.Math_round.
    apply Qfloor_resp_le.
    assert (H1 : ((t1 * 60) / 15 == 4 * t1)%Q) by field.
    assert (H2 : ((t2 * 60) / 15 == 4 * t2)%Q) by field.
    lra.
  - intros t p. rewrite setWaiterParams_returns. intros [= <-].
    cbn [CodeDeploy.maxAttempts]. unfold JS.Math_round.
    assert (H : ((t * 60) / 15 == 4 * t)%Q) by field.
    split.
    + intros H1. pose proof (Qfloor_le ((t * 60) / 15 + (1 # 2))) as Hle.
      rewrite Zle_Qle in H1. change (inject_Z 1) with 1%Q in H1.
      set (n := inject_Z (Qfloor ((t * 60) / 15 + (1 # 2)))) in *.
      rewrite H in Hle. lra.
    + intros Ht.
      assert (Hq : (inject_Z 1 <= (t * 60) / 15 + (1 # 2))%Q)
        by (change (inject_Z 1) with 1%Q; rewrite H; lra).
      apply Qfloor_resp_le in Hq. now rewrite Qfloor_Z in Hq.
Qed.

(** *** The type of an archive the task has written *)

Lemma string_app_cons (x : ascii) (a b : string) :
  String x a +:+ b = String x (a +:+ b).
Proof. reflexivity. Qed.

Lemma string_app_assoc (a b c : string) : (a +:+ b) +:+ c = a +:+ (b +:+ c).
Proof.
  induction a as [|x a IH]; [reflexivity |].
  now rewrite !string_app_cons, IH.
Qed.

Lemma get_app_r (s t : string) (k : nat) :
  String.get (String.length s + k) (s +:+ t) = String.get k t.
Proof. induction s as [|x s IH]; [reflexivity | exact IH]. Qed.

Lemma substring_app_r (s t : string) (k m : nat) :
  substring (String.length s + k) m (s +:+ t) = substring k m t.
Proof. induction s as [|x s IH]; [reflexivity | exact IH]. Qed.

Lemma noSlash_app (a b : string) : noSlash a → noSlash b → noSlash (a +:+ b).
Proof.
  induction a as [|x a IH]; [auto |].
  rewrite string_app_cons. cbn [noSlash]. intros [Hx Ha] Hb. auto.
Qed.

(** A string that does not end in a separator, split before its last
    character. *)
Lemma last_split (t : string) :
  ∀ a, t ≠ "" → noSlash t →
       ∃ s c, a +:+ t = s +:+ String c "" ∧ c ≠ "/"%char.
Proof.
  induction t as [|x t IH]; intros a Hne Hns; [contradiction |].
  destruct Hns as [Hx Ht]. destruct t as [|y t].
  - exists a, x. auto.
  - destruct (IH (a +:+ String x "") ltac:(discriminate) Ht) as (s & c & Hs & Hc).
    exists s, c. split; [| exact Hc].
    rewrite <- Hs, string_app_assoc. reflexivity.
Qed.

Lemma uint_noSlash (u : Decimal.uint) : noSlash (NilEmpty.string_of_uint u).
Proof. induction u; cbn; repeat split; auto; discriminate. Qed.

Lemma showZ_noSlash (z : Z) : noSlash (JS.showZ z).
Proof.
  unfold JS.showZ, NilZero.string_of_int, NilZero.string_of_uint.
  destruct (Z.to_int z) as [u|u]; cbn; [| split; [discriminate |]];
    destruct u; try apply uint_noSlash; cbn; repeat split; discriminate.
Qed.

Lemma extname_scan_step (path : string) (i : nat) (code : ascii) (st : Path.ExtScan) :
  String.get i path = Some code → Ascii.eqb code "/" = false →
  Path.extname_scan path (S i) st
  = Path.extname_scan path i (Path.ext_visit code (Z.of_nat i) st).
Proof. intros Hg Hc. cbn [Path.extname_scan]. now rewrite Hg, Hc. Qed.

(** After a dot, the scan never forgets that it has seen something before
    it. *)
Lemma extname_scan_predot (path : string) (n : nat) :
  ∀ st : Path.ExtScan,
    Path.startDot st ≠ (-1)%Z → Path.preDotState st ≠ 0%Z →
    Path.preDotState (Path.extname_scan path n st) ≠ 0%Z.
Proof.
  induction n as [|i IH]; intros st Hd Hp; cbn [Path.extname_scan]; [exact Hp |].
  destruct (String.get i path) as [code|]; [| exact Hp].
  destruct (Ascii.eqb code "/").
  - destruct (negb (Path.matchedSlash st)); [exact Hp | now apply IH].
  - assert (Hv : Path.startDot (Path.ext_visit code (Z.of_nat i) st) ≠ (-1)%Z
                 ∧ Path.preDotState (Path.ext_visit code (Z.of_nat i) st) ≠ 0%Z).
    { unfold Path.ext_visit. apply Z.eqb_neq in Hd.
      destruct (Path.e_end st =? -1)%Z; cbn; rewrite Hd;
        (destruct (Ascii.eqb code "."); cbn;
         [destruct (Path.preDotState st =? 1)%Z eqn:H1; cbn;
          apply Z.eqb_neq in Hd; split; auto; lia
         | apply Z.eqb_neq in Hd; split; auto; lia]). }
    now apply IH.
Qed.

Lemma ext_visit_first (code : ascii) (i : Z) (st : Path.ExtScan) :
  Ascii.eqb code "." = false → Path.e_end st = (-1)%Z → Path.startDot st = (-1)%Z →
  Path.ext_visit code i st
  = Path.mkExtScan (-1) (Path.startPart st) (i + 1) false (Path.preDotState st).
Proof.
  intros Hc He Hd. unfold Path.ext_visit. rewrite He, Hc. cbn. now rewrite Hd.
Qed.

Lemma ext_visit_plain (code : ascii) (i : Z) (st : Path.ExtScan) :
  Ascii.eqb code "." = false → Path.e_end st ≠ (-1)%Z → Path.startDot st = (-1)%Z →
  Path.ext_visit code i st = st.
Proof.
  intros Hc He Hd. unfold Path.ext_visit. apply Z.eqb_neq in He.
  rewrite He, Hc, Hd. reflexivity.
Qed.

Lemma ext_visit_dot (i : Z) (st : Path.ExtScan) :
  Path.e_end st ≠ (-1)%Z → Path.startDot st = (-1)%Z →
  Path.ext_visit "." i st
  = Path.mkExtScan i (Path.startPart st) (Path.e_end st) (Path.matchedSlash st)
      (Path.preDotState st).
Proof.
  intros He Hd. unfold Path.ext_visit. apply Z.eqb_neq in He.
  rewrite He, Hd. reflexivity.
Qed.

Lemma ext_visit_before_dot (code : ascii) (i : Z) (st : Path.ExtScan) :
  Path.e_end st ≠ (-1)%Z → Path.startDot st ≠ (-1)%Z → Path.preDotState st = 0%Z →
  Path.startDot (Path.ext_visit code i st) = Path.startDot st
  ∧ Path.e_end (Path.ext_visit code i st) = Path.e_end st
  ∧ Path.preDotState (Path.ext_visit code i st) ≠ 0%Z.
Proof.
  intros He Hd Hp. unfold Path.ext_visit. apply Z.eqb_neq in He, Hd.
  rewrite He, Hd, Hp. cbn.
  destruct (Ascii.eqb code "."); cbn; repeat split; lia.
Qed.

(** The extension of a name that ends in [.zip] after a character that is
    not a separator. *)
Lemma extname_zip (s : string) (c : ascii) :
  c ≠ "/"%char → Path.extname (s +:+ String c ".zip") = ".zip".
Proof.
  intros Hc. apply Ascii.eqb_neq in Hc.
  set (path := s +:+ String c ".zip"). set (L := String.length s).
  assert (Hlen : String.length path = S (S (S (S (S L))))).
  { subst path L. rewrite length_append. cbn. lia. }
  assert (Hg : ∀ k, String.get (L + k) path = String.get k (String c ".zip"))
    by (intros k; apply get_app_r).
  unfold Path.extname. rewrite Hlen.
  rewrite (extname_scan_step path (S (S (S (S L)))) "p");
    [| replace (S (S (S (S L)))) with (L + 4)%nat by lia; now rewrite Hg | reflexivity].
  rewrite (extname_scan_step path (S (S (S L))) "i");
    [| replace (S (S (S L))) with (L + 3)%nat by lia; now rewrite Hg | reflexivity].
  rewrite (extname_scan_step path (S (S L)) "z");
    [| replace (S (S L)) with (L + 2)%nat by lia; now rewrite Hg | reflexivity].
  rewrite (extname_scan_step path (S L) ".");
    [| replace (S L) with (L + 1)%nat by lia; now rewrite Hg | reflexivity].
  rewrite (extname_scan_step path L c);
    [| replace L with (L + 0)%nat at 1 by lia; now rewrite Hg | exact Hc].
  rewrite (ext_visit_first "p") by reflexivity. cbn [Path.startPart Path.preDotState].
  rewrite (ext_visit_plain "i") by (cbn; (reflexivity || lia)).
  rewrite (ext_visit_plain "z") by (cbn; (reflexivity || lia)).
  rewrite ext_visit_dot by (cbn; (reflexivity || lia)).
  cbn [Path.startPart Path.preDotState Path.e_end Path.matchedSlash].
  set (st := Path.ext_visit c _ _).
  assert (Hst : Path.startDot st = Z.of_nat (S L)
                ∧ Path.e_end st = (Z.of_nat (S (S (S (S L)))) + 1)%Z
                ∧ Path.preDotState st ≠ 0%Z).
  { subst st. apply ext_visit_before_dot; cbn; (reflexivity || lia). }
  destruct Hst as (Hd & He & Hp).
  destruct (extname_scan_keeps path L st) as [Hd' He']; [lia | lia |].
  pose proof (extname_scan_predot path L st ltac:(lia) Hp) as Hp'.
  rewrite Hd', He', Hd, He.
  replace (Z.of_nat (S L) =? -1)%Z with false by (symmetry; apply Z.eqb_neq; lia).
  replace (Z.of_nat (S (S (S (S L)))) + 1 =? -1)%Z with false
    by (symmetry; apply Z.eqb_neq; lia).
  apply Z.eqb_neq in Hp'. rewrite Hp'.
  replace (Z.of_nat (S L) =? Z.of_nat (S (S (S (S L)))) + 1 - 1)%Z with false
    by (symmetry; apply Z.eqb_neq; lia).
  rewrite Bool.andb_false_r. cbn [orb andb].
  unfold JS.slice.
  replace (Z.to_nat (Z.of_nat (S L))) with (L + 1)%nat by lia.
  replace (Z.to_nat (Z.of_nat (S (S (S (S L)))) + 1 - Z.of_nat (S L))) with 4%nat by lia.
  subst path L. rewrite substring_app_r. reflexivity.
Qed.

(** The name under which [createDeploymentArchive] writes the archive has
    the extension [.zip], with or without a prefix in front of it. *)
Lemma archive_name_extname (front name : string) :
  Path.extname (front +:+ name +:+ ".v" +:+ JS.showZ (dateNow E) +:+ ".zip") = ".zip".
Proof.
  destruct (last_split ("v" +:+ JS.showZ (dateNow E)) (front +:+ name +:+ "."))
    as (s & c & Hs & Hc).
  - discriminate.
  - split; [discriminate | apply showZ_noSlash].
  - replace (front +:+ name +:+ ".v" +:+ JS.showZ (dateNow E) +:+ ".zip")
      with (s +:+ String c ".zip"); [now apply extname_zip |].
    change (String c ".zip") with (String c "" +:+ ".zip").
    rewrite <- string_app_assoc, <- Hs, !string_app_assoc. reflexivity.
Qed.

(** X18.  In a run from the workspace on a folder, when [path.join] keeps
    the name of the file as the base name of the archive's path, the object
    is uploaded under the name [<application>.v<time>.zip], behind the
    prefix when the task has one, and every submission of the run declares
    the bundle type [zip]. *)
Theorem folder_is_deployed_as_zip (w : World) :
  deploymentRevisionSource taskParameters = revisionSourceFromWorkspace →
  fs w !! revisionBundle taskParameters = Some Directory →
  Path.basename (archivePath (applicationName taskParameters))
  = applicationName taskParameters +:+ ".v" +:+ JS.showZ (dateNow E) +:+ ".zip" →
  Forall (fun u =>
            S3.Key u
            = (if JS.truthy (bundlePrefix taskParameters)
               then JS.str (bundlePrefix taskParameters) +:+ "/"
               else "")
              +:+ applicationName taskParameters +:+ ".v" +:+ JS.showZ (dateNow E)
              +:+ ".zip")
         (uploads (events (execute w)))
  ∧ Forall (eq "zip") (bundleTypes (events (execute w))).
Proof.
  intros Hs Hdir Hbase.
  assert (Hres : resolveBundleKey = uploadBundle).
  { unfold resolveBundleKey. now rewrite Hs, String.eqb_refl. }
  set (archive := archivePath (applicationName taskParameters)) in *.
  set (name := applicationName taskParameters +:+ ".v" +:+ JS.showZ (dateNow E)
               +:+ ".zip") in *.
  set (front := if JS.truthy (bundlePrefix taskParameters)
                then JS.str (bundlePrefix taskParameters) +:+ "/" else "").
  assert (Hkey : bundleObjectKey archive = front +:+ name).
  { unfold bundleObjectKey, front. rewrite Hbase.
    destruct (JS.truthy _); [| reflexivity].
    now rewrite string_app_assoc. }
  pose proof (uploadBundle_directory w Hdir) as Hu. cbn zeta in Hu. fold archive in Hu.
  split.
  - unfold uploads. destruct (execute_local _ w uploads_stage) as [-> | ->];
      [constructor |].
    rewrite Hres, Hu.
    destruct (admZip E _ _); [| constructor].
    destruct (s3_upload E _); [destruct (zipWritten E _ _ _ !! _) as [[|]|] |];
      repeat constructor; exact Hkey.
  - unfold bundleTypes, createDeployments.
    destruct (execute_late _ 3 w createDeployments_stage) as [-> | (key & Ho & ->)];
      [lia | constructor |].
    pose proof (afterResolution_requests key (final (resolveBundleKey w))) as Hr.
    unfold createDeployments in Hr. rewrite Hr.
    assert (Hk : key = front +:+ name).
    { rewrite Hres, Hu in Ho.
      destruct (admZip E _ _); [| discriminate].
      destruct (s3_upload E _); [| discriminate].
      destruct (zipWritten E _ _ _ !! _) as [[|]|]; [| discriminate..].
      cbn in Ho. injection Ho as <-. exact Hkey. }
    repeat constructor. cbn. unfold archiveTypeOf. subst key name.
    now rewrite archive_name_extname.
Qed.

End TaskOperations.

(** ** The sample invocations *)

Example extname_samples :
  map Path.extname
    ["bundle.tar"; "bundle"; "bundle."; ".bashrc"; "a.b/c"; ".."; "a/b.TAR.gz/"; "p/app.v123.zip"]
  = [".tar"; ""; "."; ""; ""; ""; ".gz"; ".zip"].
Proof. vm_compute. reflexivity. Qed.

Example basename_samples :
  map Path.basename ["/tmp/app.v123.zip"; "app.zip"; "a/b/"; "/"; ""; "a//b//"]
  = ["app.v123.zip"; "app.zip"; "b"; ""; ""; "b"].
Proof. vm_compute. reflexivity. Qed.

Example archivePath_sample : archivePath Sample.env "app" = Sample.archive.
Proof. vm_compute. reflexivity. Qed.

(** A folder of the workspace, every collaborator answering: the archive is
    written, uploaded under the prefix and removed, the deployment is
    submitted, its identifier published, and the wait is asked for 20
    attempts. *)
Example execute_sample :
  let r := execute "workspace" "s3" 30 Sample.env Sample.tp Sample.world in
  outcome r = Returned tt
  ∧ map S3.Key (uploads (events r)) = ["p/app.v1700000000123.zip"]
  ∧ unlinked (events r) = [Sample.archive]
  ∧ bundleTypes (events r) = ["zip"]
  ∧ published (events r) = [("deploymentId", "d-123")]
  ∧ waits (events r) = [CodeDeploy.mkWaiterParams "d-123" 20]
  ∧ fs (final r) = fs Sample.world.
Proof. cbv zeta. repeat split; vm_compute; reflexivity. Qed.

(** The same folder when the upload is refused: the run ends with the error
    of the upload, and the archive is left where it was written. *)
Example execute_sample_upload_refused :
  let r := execute "workspace" "s3" 30 Sample.envUploadFails Sample.tp Sample.world in
  outcome r = Thrown (Sample.failure "AccessDenied")
  ∧ unlinked (events r) = []
  ∧ createDeployments (events r) = []
  ∧ fs (final r) !! Sample.archive = Some File.
Proof. cbv zeta. repeat split; vm_compute; reflexivity. Qed.

(** The same folder with a directory at the path of the archive: nothing is
    written over it, the upload is accepted, the removal throws, and the run
    ends with that error: the directory is still there, and nothing is
    submitted. *)
Example execute_sample_archive_path_taken :
  let r := execute "workspace" "s3" 30 Sample.env Sample.tp Sample.worldTaken in
  outcome r
  = Thrown (Sample.failure
              "EISDIR: illegal operation on a directory, unlink '/tmp/app.v1700000000123.zip'")
  ∧ map S3.Key (uploads (events r)) = ["p/app.v1700000000123.zip"]
  ∧ unlinked (events r) = [Sample.archive]
  ∧ createDeployments (events r) = []
  ∧ fs (final r) = fs Sample.worldTaken.
Proof. cbv zeta. repeat split; vm_compute; reflexivity. Qed.

(** Names of one key are one variable. *)
Example getVariableKey_samples :
  map TaskLib.getVariableKey ["deploymentId"; "DEPLOYMENTID"; "my.output id"; "MY_OUTPUT_ID"]
  = ["DEPLOYMENTID"; "DEPLOYMENTID"; "MY_OUTPUT_ID"; "MY_OUTPUT_ID"].
Proof. vm_compute. reflexivity. Qed.

(** C1, as the specification states it, fails: the wait of this run fails
    and the run has published the deployment identifier all the same. *)
Lemma publication_survives_failed_wait :
  ¬ publishedOnlyAfterSuccessfulWait "workspace" "s3" 30 Sample.envWaitFails Sample.tp.
Proof.
  intros H.
  specialize (H Sample.world (CodeDeploy.mkWaiterParams "d-123" 20)).
  assert (Hp : published (events (execute "workspace" "s3" 30 Sample.envWaitFails
                                   Sample.tp Sample.world))
               = [("deploymentId", "d-123")]) by (vm_compute; reflexivity).
  rewrite Hp in H. discriminate H.
  - vm_compute. apply list_elem_of_here.
  - vm_compute. eauto.
Qed.

(** The publication on a run whose wait fails. *)
Lemma deployment_id_published_before_wait_witness :
  outcome (submitDeployment "workspace" "s3" Sample.envWaitFails Sample.tp Sample.world)
  = Returned "d-123"
  ∧ JS.truthy (outputVariable Sample.tp) = true
  ∧ published (events (execute "workspace" "s3" 30 Sample.envWaitFails Sample.tp
                         Sample.world))
    = [("deploymentId", "d-123")]
  ∧ variables (final (execute "workspace" "s3" 30 Sample.envWaitFails Sample.tp
                        Sample.world)) !! "deploymentId"
    = Some "d-123".
Proof.
  assert (Ho : outcome (submitDeployment "workspace" "s3" Sample.envWaitFails Sample.tp
                          Sample.world) = Returned "d-123") by (vm_compute; reflexivity).
  split; [exact Ho | split; [reflexivity |]].
  destruct (proj1 (deployment_id_published_before_wait "workspace" "s3" 30
                     Sample.envWaitFails Sample.tp Sample.world)
              "d-123" Ho eq_refl) as (Hp & Hv & _).
  split; [exact Hp | exact Hv].
Defined.

(** The clean-up on the sample folder, with the upload accepted and refused,
    and on the sample file. *)
Lemma archive_cleanup_after_upload_witness :
  deploymentRevisionSource Sample.tp = "workspace"
  ∧ outcome (verifyResourcesExist "s3" Sample.env Sample.tp Sample.world) = Returned tt
  ∧ fs Sample.world !! revisionBundle Sample.tp = Some Directory
  ∧ zipWritten Sample.env (revisionBundle Sample.tp) Sample.archive (fs Sample.world)
      !! Sample.archive = Some File
  ∧ fs (final (execute "workspace" "s3" 30 Sample.env Sample.tp Sample.world))
      !! Sample.archive = None
  ∧ unlinked (events (execute "workspace" "s3" 30 Sample.env Sample.tp Sample.world))
    = [Sample.archive]
  ∧ outcome (execute "workspace" "s3" 30 Sample.envUploadFails Sample.tp Sample.world)
    = Thrown (Sample.failure "AccessDenied")
  ∧ fs (final (execute "workspace" "s3" 30 Sample.envUploadFails Sample.tp Sample.world))
      !! Sample.archive = Some File
  ∧ unlinked (events (execute "workspace" "s3" 30 Sample.envUploadFails Sample.tp
                        Sample.world)) = []
  ∧ fs (final (execute "workspace" "s3" 30 Sample.envUploadFails Sample.tpFile
                 Sample.world)) = fs Sample.world.
Proof.
  assert (Hw : zipWritten Sample.env (revisionBundle Sample.tp) Sample.archive
                 (fs Sample.world) !! Sample.archive = Some File)
    by (vm_compute; reflexivity).
  split; [reflexivity | split; [vm_compute; reflexivity | split; [vm_compute; reflexivity |]]].
  split; [exact Hw |].
  destruct (archive_cleanup_after_upload "workspace" "s3" 30 Sample.env Sample.tp
              Sample.world eq_refl) as [Hdir _]; [vm_compute; reflexivity |].
  destruct (Hdir ltac:(vm_compute; reflexivity) eq_refl) as [Hok _].
  destruct (Hok eq_refl Hw) as (_ & Hgone & Hun & _).
  destruct (archive_cleanup_after_upload "workspace" "s3" 30 Sample.envUploadFails
              Sample.tp Sample.world eq_refl) as [Hdir' _]; [vm_compute; reflexivity |].
  destruct (Hdir' ltac:(vm_compute; reflexivity) eq_refl) as [_ Hfail].
  destruct (Hfail (Sample.failure "AccessDenied") eq_refl) as (Herr & _ & Hkept & Hun').
  specialize (Hkept Hw).
  destruct (archive_cleanup_after_upload "workspace" "s3" 30 Sample.envUploadFails
              Sample.tpFile Sample.world eq_refl) as [_ Hfile]; [vm_compute; reflexivity |].
  destruct (Hfile ltac:(vm_compute; reflexivity)) as (Hsame & _).
  repeat split; assumption.
Defined.

(** The sample run against an account without the application. *)
Lemma application_missing_aborts_witness :
  cd_getApplication Sample.envNoApplication (applicationName Sample.tp)
  = Thrown (Sample.failure "ApplicationDoesNotExistException")
  ∧ execute "workspace" "s3" 30 Sample.envNoApplication Sample.tp Sample.world
    = mkRun Sample.world [GetApplication "app"]
        (Thrown (mkError (Loc "ApplicationDoesNotExist" [Str "app"])))
  ∧ uploads (events (execute "workspace" "s3" 30 Sample.envNoApplication Sample.tp
                       Sample.world)) = []
  ∧ createDeployments (events (execute "workspace" "s3" 30 Sample.envNoApplication
                                 Sample.tp Sample.world)) = [].
Proof.
  split; [reflexivity |].
  exact (application_missing_aborts "workspace" "s3" 30 Sample.envNoApplication
           Sample.tp Sample.world
           (Sample.failure "ApplicationDoesNotExistException") eq_refl).
Defined.

(** The sample runs with the S3 source and with an unknown source. *)
Lemma revision_source_selects_path_witness :
  "workspace" ≠ "s3"
  ∧ deploymentRevisionSource Sample.tpS3 = "s3"
  ∧ outcome (verifyResourcesExist "s3" Sample.env Sample.tpS3 Sample.world) = Returned tt
  ∧ uploads (events (execute "workspace" "s3" 30 Sample.env Sample.tpS3 Sample.world)) = []
  ∧ unlinked (events (execute "workspace" "s3" 30 Sample.env Sample.tpS3 Sample.world)) = []
  ∧ fs (final (execute "workspace" "s3" 30 Sample.env Sample.tpS3 Sample.world))
    = fs Sample.world
  ∧ map (fun r => CodeDeploy.s3Location (CodeDeploy.revision r))
        (createDeployments
           (events (execute "workspace" "s3" 30 Sample.env Sample.tpS3 Sample.world)))
    = [CodeDeploy.mkS3Location "bkt" "bundle.tar" "tar"]
  ∧ execute "workspace" "s3" 30 Sample.env Sample.tpOther Sample.world
    = mkRun Sample.world [GetApplication "app"; GetDeploymentGroup "app" "grp"]
        (Thrown (mkError (Loc "UnknownRevisionSource" [Str "git"]))).
Proof.
  assert (Hne : "workspace" ≠ "s3") by discriminate.
  assert (Hv : outcome (verifyResourcesExist "s3" Sample.env Sample.tpS3 Sample.world)
               = Returned tt) by (vm_compute; reflexivity).
  destruct (revision_source_selects_path "workspace" "s3" 30 Sample.env Sample.tpS3 Hne)
    as [Hquiet Hpaths].
  destruct (Hquiet eq_refl Sample.world) as (_ & Hu & Hd & Hf).
  destruct (Hpaths Sample.world Hv) as (_ & Hs3 & _).
  destruct (Hs3 eq_refl) as [_ Hreq].
  destruct (revision_source_selects_path "workspace" "s3" 30 Sample.env Sample.tpOther Hne)
    as [_ Hpaths'].
  destruct (Hpaths' Sample.world ltac:(vm_compute; reflexivity)) as (_ & _ & Hother).
  split; [exact Hne | split; [reflexivity | split; [exact Hv |]]].
  split; [exact Hu | split; [exact Hd | split; [exact Hf | split; [exact Hreq |]]]].
  exact (Hother ltac:(discriminate) ltac:(discriminate)).
Defined.

(** The sample submission answered without an identifier. *)
Lemma missing_deployment_id_continues_witness :
  cd_createDeployment Sample.envNoDeploymentId
    (createDeploymentInput Sample.tp "p/app.zip" (archiveTypeOf "p/app.zip"))
  = Returned (CodeDeploy.mkCreateDeploymentOutput None)
  ∧ outcome (deployRevision Sample.envNoDeploymentId Sample.tp "p/app.zip" Sample.world)
    = Returned ""
  ∧ waits (events (afterResolution 30 Sample.envNoDeploymentId Sample.tp "p/app.zip"
                     Sample.world))
    = [CodeDeploy.mkWaiterParams "" 20]
  ∧ outcome (afterResolution 30 Sample.envNoDeploymentId Sample.tp "p/app.zip"
               Sample.world)
    = Returned tt.
Proof.
  split; [reflexivity |].
  exact (missing_deployment_id_continues 30 Sample.envNoDeploymentId Sample.tp
           "p/app.zip" Sample.world eq_refl).
Defined.

(** The keys of the sample file (no prefix) and folder (prefix [p]). *)
Lemma object_key_from_prefix_witness :
  bundlePrefix Sample.tpFile = None
  ∧ bundleObjectKey Sample.tpFile "/work/site.zip" = "site.zip"
  ∧ bundlePrefix Sample.tp = Some "p"
  ∧ "p" ≠ ""
  ∧ bundleObjectKey Sample.tp "/tmp/app.v123.zip" = "p/app.v123.zip"
  ∧ Forall (fun r => S3.Key r = "p" +:+ "/" +:+ Path.basename (S3.Body r))
           (uploads (events (uploadBundle Sample.env Sample.tp Sample.world))).
Proof.
  assert (Hne : "p" ≠ "") by discriminate.
  destruct (object_key_from_prefix Sample.env Sample.tpFile) as (Hnone & _ & _).
  destruct (object_key_from_prefix Sample.env Sample.tp) as (_ & Hsome & Hp).
  destruct (Hsome "p" eq_refl Hne) as [_ Hup].
  split; [reflexivity | split; [exact (proj1 (Hnone eq_refl) "/work/site.zip") |]].
  split; [reflexivity | split; [exact Hne |]].
  split; [exact (Hp eq_refl "/tmp/app.v123.zip" eq_refl) | exact (Hup Sample.world)].
Defined.

(** The key of the sample folder under an empty prefix. *)
Lemma empty_prefix_is_no_prefix_witness :
  bundlePrefix Sample.tpEmptyPrefix = Some ""
  ∧ bundleObjectKey Sample.tpEmptyPrefix Sample.archive = "app.v1700000000123.zip"
  ∧ Forall (fun r => S3.Key r = Path.basename (S3.Body r)
                     ∧ S3.Key r ≠ "/" +:+ Path.basename (S3.Body r))
           (uploads (events (uploadBundle Sample.env Sample.tpEmptyPrefix Sample.world))).
Proof.
  destruct (empty_prefix_is_no_prefix Sample.env Sample.tpEmptyPrefix eq_refl)
    as [Hk Hup].
  split; [reflexivity | split; [exact (proj1 (Hk Sample.archive)) | exact (Hup Sample.world)]].
Defined.

(** ** The further properties on the sample invocations *)

(** The sample run against an application without the deployment group. *)
Lemma deployment_group_missing_aborts_witness :
  cd_getApplication Sample.envNoGroup (applicationName Sample.tp) = Returned tt
  ∧ cd_getDeploymentGroup Sample.envNoGroup (applicationName Sample.tp)
      (deploymentGroupName Sample.tp)
    = Thrown (Sample.failure "DeploymentGroupDoesNotExistException")
  ∧ execute "workspace" "s3" 30 Sample.envNoGroup Sample.tp Sample.world
    = mkRun Sample.world [GetApplication "app"; GetDeploymentGroup "app" "grp"]
        (Thrown (mkError (Loc "DeploymentGroupDoesNotExist" [Str "grp"; Str "app"]))).
Proof.
  split; [reflexivity | split; [reflexivity |]].
  exact (deployment_group_missing_aborts "workspace" "s3" 30 Sample.envNoGroup Sample.tp
           Sample.world (Sample.failure "DeploymentGroupDoesNotExistException")
           eq_refl eq_refl).
Defined.

(** The sample run with the S3 source against a bucket without the object. *)
Lemma revision_object_missing_aborts_witness :
  deploymentRevisionSource Sample.tpS3 = "s3"
  ∧ s3_headObject Sample.envNoObject (bucketName Sample.tpS3) (bundleKey Sample.tpS3)
    = Thrown (Sample.failure "NotFound")
  ∧ execute "workspace" "s3" 30 Sample.envNoObject Sample.tpS3 Sample.world
    = mkRun Sample.world
        [GetApplication "app"; GetDeploymentGroup "app" "grp"; HeadObject "bkt" "bundle.tar"]
        (Thrown (mkError (Loc "RevisionBundleDoesNotExist" [Str "bundle.tar"; Str "bkt"]))).
Proof.
  split; [reflexivity | split; [reflexivity |]].
  exact (revision_object_missing_aborts "workspace" "s3" 30 Sample.envNoObject Sample.tpS3
           Sample.world (Sample.failure "NotFound") eq_refl eq_refl eq_refl eq_refl).
Defined.

(** The sample run from the workspace never probes the bucket. *)
Lemma precondition_passes_iff_witness :
  deploymentRevisionSource Sample.tp ≠ "s3"
  ∧ outcome (verifyResourcesExist "s3" Sample.env Sample.tp Sample.world) = Returned tt
  ∧ headObjects (events (execute "workspace" "s3" 30 Sample.env Sample.tp Sample.world))
    = [].
Proof.
  assert (Hne : deploymentRevisionSource Sample.tp ≠ "s3") by discriminate.
  destruct (precondition_passes_iff "workspace" "s3" 30 Sample.env Sample.tp Sample.world)
    as [Hiff Hno].
  split; [exact Hne | split; [| exact (Hno Hne)]].
  apply Hiff. split; [reflexivity | split; [reflexivity |]]. intros H. contradiction.
Defined.


(** The sample run on a path at which the workspace holds nothing. *)
Lemma missing_bundle_aborts_witness :
  deploymentRevisionSource Sample.tpMissing = "workspace"
  ∧ outcome (verifyResourcesExist "s3" Sample.env Sample.tpMissing Sample.world)
    = Returned tt
  ∧ fs Sample.world !! revisionBundle Sample.tpMissing = None
  ∧ events (execute "workspace" "s3" 30 Sample.env Sample.tpMissing Sample.world)
    = events (verifyResourcesExist "s3" Sample.env Sample.tpMissing Sample.world)
        ++ [Stats "/work/nothing"]
  ∧ final (execute "workspace" "s3" 30 Sample.env Sample.tpMissing Sample.world)
    = Sample.world.
Proof.
  assert (Hv : outcome (verifyResourcesExist "s3" Sample.env Sample.tpMissing Sample.world)
               = Returned tt) by (vm_compute; reflexivity).
  assert (Hn : fs Sample.world !! revisionBundle Sample.tpMissing = None)
    by (vm_compute; reflexivity).
  destruct (missing_bundle_aborts "workspace" "s3" 30 Sample.env Sample.tpMissing
              Sample.world eq_refl Hv Hn) as (_ & He & Hf).
  split; [reflexivity | split; [exact Hv | split; [exact Hn | split; [exact He | exact Hf]]]].
Defined.

(** On the sample run the console ends with [TaskCompleted]. *)
Lemma task_completed_iff_returned_witness :
  outcome (execute "workspace" "s3" 30 Sample.env Sample.tp Sample.world) = Returned tt
  ∧ ∃ before,
      events (execute "workspace" "s3" 30 Sample.env Sample.tp Sample.world)
      = before ++ [ConsoleLog (Loc "TaskCompleted" [Str "app"])]
      ∧ Forall (fun e => isTaskCompleted e = false) before.
Proof.
  assert (Ho : outcome (execute "workspace" "s3" 30 Sample.env Sample.tp Sample.world)
               = Returned tt) by (vm_compute; reflexivity).
  split; [exact Ho |].
  exact (proj2 (task_completed_iff_returned "workspace" "s3" 30 Sample.env Sample.tp
                  Sample.world) Ho).
Defined.

(** The sample run returns, its waiter reporting no error. *)
Lemma returns_iff_deployment_succeeded_witness :
  outcome (submitDeployment "workspace" "s3" Sample.env Sample.tp Sample.world)
  = Returned "d-123"
  ∧ cd_waitFor Sample.env "deploymentSuccessful" (waiterParams Sample.tp "d-123") = None
  ∧ outcome (execute "workspace" "s3" 30 Sample.env Sample.tp Sample.world) = Returned tt.
Proof.
  assert (Ho : outcome (submitDeployment "workspace" "s3" Sample.env Sample.tp Sample.world)
               = Returned "d-123") by (vm_compute; reflexivity).
  split; [exact Ho | split; [reflexivity |]].
  apply (returns_iff_deployment_succeeded "workspace" "s3" 30 Sample.env Sample.tp
           Sample.world).
  exists "d-123". split; [exact Ho | reflexivity].
Defined.

(** The sample submission when [createDeployment] refuses it. *)
Lemma submission_failure_aborts_witness :
  cd_createDeployment Sample.envSubmitFails
    (createDeploymentInput Sample.tp "p/app.zip" (archiveTypeOf "p/app.zip"))
  = Thrown (Sample.failure "RevisionDoesNotExistException")
  ∧ outcome (afterResolution 30 Sample.envSubmitFails Sample.tp "p/app.zip" Sample.world)
    = Thrown (Sample.failure "RevisionDoesNotExistException")
  ∧ published (events (afterResolution 30 Sample.envSubmitFails Sample.tp "p/app.zip"
                         Sample.world)) = []
  ∧ waits (events (afterResolution 30 Sample.envSubmitFails Sample.tp "p/app.zip"
                     Sample.world)) = [].
Proof.
  destruct (submission_failure_aborts 30 Sample.envSubmitFails Sample.tp "p/app.zip"
              Sample.world (Sample.failure "RevisionDoesNotExistException") eq_refl)
    as (_ & Ho & _ & _ & Hp & Hw).
  split; [reflexivity | split; [exact Ho | split; [exact Hp | exact Hw]]].
Defined.

(** The sample submission answered with [d-123]. *)
Lemma returned_id_is_waited_for_witness :
  cd_createDeployment Sample.env
    (createDeploymentInput Sample.tp "p/app.zip" (archiveTypeOf "p/app.zip"))
  = Returned (CodeDeploy.mkCreateDeploymentOutput (Some "d-123"))
  ∧ "d-123" ≠ ""
  ∧ waits (events (afterResolution 30 Sample.env Sample.tp "p/app.zip" Sample.world))
    = [CodeDeploy.mkWaiterParams "d-123" 20]
  ∧ published (events (afterResolution 30 Sample.env Sample.tp "p/app.zip" Sample.world))
    = [("deploymentId", "d-123")].
Proof.
  assert (Hne : "d-123" ≠ "") by discriminate.
  destruct (returned_id_is_waited_for 30 Sample.env Sample.tp "p/app.zip" "d-123"
              Sample.world eq_refl Hne) as (_ & Hw & Hp).
  split; [reflexivity | split; [exact Hne | split; [exact Hw | exact Hp]]].
Defined.

(** On the sample run the submission names the object just uploaded. *)
Lemma submission_refers_to_upload_witness :
  deploymentRevisionSource Sample.tp = "workspace"
  ∧ length (createDeployments
              (events (execute "workspace" "s3" 30 Sample.env Sample.tp Sample.world)))
    = 1%nat
  ∧ Forall (fun d =>
              ∃ u, u ∈ uploads (events (execute "workspace" "s3" 30 Sample.env Sample.tp
                                          Sample.world))
                   ∧ S3.Bucket u
                     = CodeDeploy.bucket (CodeDeploy.s3Location (CodeDeploy.revision d))
                   ∧ S3.Key u
                     = CodeDeploy.key (CodeDeploy.s3Location (CodeDeploy.revision d)))
           (createDeployments
              (events (execute "workspace" "s3" 30 Sample.env Sample.tp Sample.world))).
Proof.
  split; [reflexivity | split; [vm_compute; reflexivity |]].
  exact (submission_refers_to_upload "workspace" "s3" 30 Sample.env Sample.tp Sample.world
           eq_refl).
Defined.

(** A variable of another key is as it was after the sample run. *)
Lemma variables_footprint_witness :
  TaskLib.getVariableKey "other" ≠ TaskLib.getVariableKey (JS.str (outputVariable Sample.tp))
  ∧ variables (final (execute "workspace" "s3" 30 Sample.env Sample.tp Sample.world))
      !! "other"
    = variables Sample.world !! "other".
Proof.
  assert (Hne : TaskLib.getVariableKey "other"
                ≠ TaskLib.getVariableKey (JS.str (outputVariable Sample.tp)))
    by (vm_compute; discriminate).
  split; [exact Hne |].
  exact (proj1 (variables_footprint "workspace" "s3" 30 Sample.env Sample.tp Sample.world)
           "other" Hne).
Defined.

(** The sample run leaves the filesystem as it found it. *)
Lemma filesystem_restored_witness :
  deploymentRevisionSource Sample.tp = "workspace"
  ∧ outcome (verifyResourcesExist "s3" Sample.env Sample.tp Sample.world) = Returned tt
  ∧ fs Sample.world !! revisionBundle Sample.tp = Some Directory
  ∧ fs Sample.world !! archivePath Sample.env (applicationName Sample.tp) = None
  ∧ zipWritten Sample.env (revisionBundle Sample.tp)
      (archivePath Sample.env (applicationName Sample.tp)) (fs Sample.world)
    = <[archivePath Sample.env (applicationName Sample.tp) := File]> (fs Sample.world)
  ∧ fs (final (execute "workspace" "s3" 30 Sample.env Sample.tp Sample.world))
    = fs Sample.world
  ∧ zipped (events (execute "workspace" "s3" 30 Sample.env Sample.tp Sample.world))
    = [Sample.archive]
  ∧ unlinked (events (execute "workspace" "s3" 30 Sample.env Sample.tp Sample.world))
    = [Sample.archive].
Proof.
  assert (Hv : outcome (verifyResourcesExist "s3" Sample.env Sample.tp Sample.world)
               = Returned tt) by (vm_compute; reflexivity).
  assert (Hd : fs Sample.world !! revisionBundle Sample.tp = Some Directory)
    by (vm_compute; reflexivity).
  assert (Hn : fs Sample.world !! archivePath Sample.env (applicationName Sample.tp) = None)
    by (vm_compute; reflexivity).
  assert (Hw : zipWritten Sample.env (revisionBundle Sample.tp)
                 (archivePath Sample.env (applicationName Sample.tp)) (fs Sample.world)
               = <[archivePath Sample.env (applicationName Sample.tp) := File]>
                   (fs Sample.world))
    by (vm_compute; reflexivity).
  destruct (filesystem_restored "workspace" "s3" 30 Sample.env Sample.tp Sample.world
              eq_refl Hv Hd Hn eq_refl Hw eq_refl) as (Hf & Hz & Hu).
  split; [reflexivity | split; [exact Hv | split; [exact Hd | split; [exact Hn |]]]].
  split; [exact Hw |].
  split; [exact Hf | split; [exact Hz | exact Hu]].
Defined.

(** The sample run with a directory at the path of the archive: the upload
    is accepted, the removal fails, and the run ends with the error of the
    removal, the directory still there. *)
Lemma failed_unlink_aborts_witness :
  deploymentRevisionSource Sample.tp = "workspace"
  ∧ outcome (verifyResourcesExist "s3" Sample.env Sample.tp Sample.worldTaken)
    = Returned tt
  ∧ fs Sample.worldTaken !! revisionBundle Sample.tp = Some Directory
  ∧ zipWritten Sample.env (revisionBundle Sample.tp)
      (archivePath Sample.env (applicationName Sample.tp)) (fs Sample.worldTaken)
      !! archivePath Sample.env (applicationName Sample.tp)
    ≠ Some File
  ∧ ∃ err,
      outcome (execute "workspace" "s3" 30 Sample.env Sample.tp Sample.worldTaken)
      = Thrown err
      ∧ fs (final (execute "workspace" "s3" 30 Sample.env Sample.tp Sample.worldTaken))
        = zipWritten Sample.env (revisionBundle Sample.tp)
            (archivePath Sample.env (applicationName Sample.tp)) (fs Sample.worldTaken)
      ∧ createDeployments
          (events (execute "workspace" "s3" 30 Sample.env Sample.tp Sample.worldTaken))
        = [].
Proof.
  assert (Hv : outcome (verifyResourcesExist "s3" Sample.env Sample.tp Sample.worldTaken)
               = Returned tt) by (vm_compute; reflexivity).
  assert (Hd : fs Sample.worldTaken !! revisionBundle Sample.tp = Some Directory)
    by (vm_compute; reflexivity).
  assert (Hw : zipWritten Sample.env (revisionBundle Sample.tp)
                 (archivePath Sample.env (applicationName Sample.tp))
                 (fs Sample.worldTaken)
                 !! archivePath Sample.env (applicationName Sample.tp)
               ≠ Some File) by (vm_compute; discriminate).
  destruct (failed_unlink_aborts "workspace" "s3" 30 Sample.env Sample.tp
              Sample.worldTaken eq_refl Hv Hd eq_refl eq_refl Hw)
    as (err & Ho & _ & Hf & _ & _ & Hc).
  split; [reflexivity | split; [exact Hv | split; [exact Hd | split; [exact Hw |]]]].
  exists err. split; [exact Ho | split; [exact Hf | exact Hc]].
Defined.

(** One minute gives 4 attempts and five minutes 20; a sixteenth of a minute
    gives none. *)
Lemma max_attempts_bounds_witness :
  outcome (setWaiterParams 30 "d-123" 1 Sample.world)
  = Returned (CodeDeploy.mkWaiterParams "d-123" 4)
  ∧ outcome (setWaiterParams 30 "d-123" 5 Sample.world)
    = Returned (CodeDeploy.mkWaiterParams "d-123" 20)
  ∧ (1 <= 5)%Q
  ∧ (4 <= 20)%Z
  ∧ outcome (setWaiterParams 30 "d-123" (1 # 16) Sample.world)
    = Returned (CodeDeploy.mkWaiterParams "d-123" 0)
  ∧ ¬ (1 # 8 <= 1 # 16)%Q.
Proof.
  assert (H1 : outcome (setWaiterParams 30 "d-123" 1 Sample.world)
               = Returned (CodeDeploy.mkWaiterParams "d-123" 4)) by reflexivity.
  assert (H5 : outcome (setWaiterParams 30 "d-123" 5 Sample.world)
               = Returned (CodeDeploy.mkWaiterParams "d-123" 20)) by reflexivity.
  assert (H0 : outcome (setWaiterParams 30 "d-123" (1 # 16) Sample.world)
               = Returned (CodeDeploy.mkWaiterParams "d-123" 0)) by reflexivity.
  assert (Hle : (1 <= 5)%Q) by (vm_compute; discriminate).
  destruct (max_attempts_bounds 30 "d-123" Sample.world) as [Hmono Hone].
  split; [exact H1 | split; [exact H5 | split; [exact Hle |]]].
  split; [exact (Hmono 1%Q 5%Q _ _ H1 H5 Hle) | split; [exact H0 |]].
  intros Hq. apply (proj2 (Hone (1 # 16)%Q _ H0)) in Hq. cbn in Hq. lia.
Defined.

(** The sample folder goes up as [p/app.v1700000000123.zip], of type [zip]. *)
Lemma folder_is_deployed_as_zip_witness :
  deploymentRevisionSource Sample.tp = "workspace"
  ∧ fs Sample.world !! revisionBundle Sample.tp = Some Directory
  ∧ Path.basename (archivePath Sample.env (applicationName Sample.tp))
    = applicationName Sample.tp +:+ ".v" +:+ JS.showZ (dateNow Sample.env) +:+ ".zip"
  ∧ bundleTypes (events (execute "workspace" "s3" 30 Sample.env Sample.tp Sample.world))
    = ["zip"]
  ∧ Forall (eq "zip")
           (bundleTypes
              (events (execute "workspace" "s3" 30 Sample.env Sample.tp Sample.world))).
Proof.
  assert (Hd : fs Sample.world !! revisionBundle Sample.tp = Some Directory)
    by (vm_compute; reflexivity).
  assert (Hb : Path.basename (archivePath Sample.env (applicationName Sample.tp))
               = applicationName Sample.tp +:+ ".v" +:+ JS.showZ (dateNow Sample.env)
                 +:+ ".zip") by (vm_compute; reflexivity).
  destruct (folder_is_deployed_as_zip "workspace" "s3" 30 Sample.env Sample.tp Sample.world
              eq_refl Hd Hb) as [_ Hz].
  split; [reflexivity | split; [exact Hd | split; [exact Hb |]]].
  split; [vm_compute; reflexivity | exact Hz].
Defined.
